(** * Mapping tool: [map_csv_to_csv] of final_mapping_code/final.py

    A shallow embedding of the award-record mapper.  The script reads a
    source table and a target template with pandas, normalises a handful
    of source columns in place, and then, for every source row, copies the
    template, fills the value column and writes the copy to a file named
    after the row's grantAwardId.

    Modelling choices, all taken from the script:
    - text is ISO-8859-1 ([encoding="ISO-8859-1"]), so a Python [str] read
      from the inputs is a sequence of characters below 256: a [string];
    - a cell of a DataFrame is a [cell]: the float [nan] of a missing
      value, [NaT], a [str], or a [datetime.date]; a number read from a
      numeric column is represented by the text [str()] gives for it;
    - pandas semantics are those of the 1.3 - 2.x series the script was
      written for ([on_bad_lines] needs 1.3): [astype(str)] renders a
      missing value as the text ["nan"];
    - DataFrames are objects on a heap, mutated in place by item and
      [.loc] assignment and duplicated by [copy()];
    - the file system is a finite map from path names to the table last
      written there. *)

From stdpp Require Import gmap strings list fin_maps.
From Stdlib Require Import Ascii DecimalString.

Open Scope string_scope.
Open Scope nat_scope.

(** ** Python [str] primitives on Latin-1 text *)

Module Py.

Definition code (c : ascii) : nat := nat_of_ascii c.

(** [str.isspace] for one character below 256: TAB..CR, FS..US, space,
    NEL and NBSP. *)
Definition is_space (c : ascii) : bool :=
  let n := code c in
  ((9 <=? n) && (n <=? 13)) || ((28 <=? n) && (n <=? 32))
  || (n =? 133) || (n =? 160).

Fixpoint lstrip (s : string) : string :=
  match s with
  | String c s' => if is_space c then lstrip s' else s
  | EmptyString => EmptyString
  end.

Fixpoint rstrip (s : string) : string :=
  match s with
  | String c s' =>
      match rstrip s' with
      | EmptyString => if is_space c then EmptyString else String c EmptyString
      | r => String c r
      end
  | EmptyString => EmptyString
  end.

(** [s.strip()] *)
Definition strip (s : string) : string := rstrip (lstrip s).

(** [str.lower] for one character below 256: A..Z and the accented
    capitals U+00C0..U+00DE (but the multiplication sign U+00D7) move up
    by 32; the result stays below 256. *)
Definition lower_char (c : ascii) : ascii :=
  let n := code c in
  if ((65 <=? n) && (n <=? 90))
     || ((192 <=? n) && (n <=? 222) && negb (n =? 215))
  then ascii_of_nat (n + 32) else c.

Fixpoint lower (s : string) : string :=
  match s with
  | String c s' => String (lower_char c) (lower s')
  | EmptyString => EmptyString
  end.

(** [s.split(sep)] for a one-character separator: never empty. *)
Fixpoint split (sep : ascii) (s : string) : list string :=
  match s with
  | EmptyString => [EmptyString]
  | String c s' =>
      if Ascii.eqb c sep then EmptyString :: split sep s'
      else match split sep s' with
           | x :: xs => String c x :: xs
           | [] => [String c EmptyString]
           end
  end.

(** [str(n)] for a natural number *)
Definition str_of_nat (n : nat) : string :=
  NilEmpty.string_of_uint (Nat.to_uint n).

(** [f"{n:0{w}d}"]: decimal, padded with zeros to width [w] *)
Definition zfill (w n : nat) : string :=
  let s := str_of_nat n in
  String.concat "" (replicate (w - String.length s) "0") +:+ s.

(** [os.path.join(a, b)] on a POSIX system *)
Definition path_join (a b : string) : string :=
  match b with
  | String "/"%char _ => b
  | _ =>
      match a with
      | EmptyString => b
      | _ => if String.eqb (String.substring (String.length a - 1) 1 a) "/"
             then a +:+ b else a +:+ "/" +:+ b
      end
  end.

End Py.

(** ** Cells *)

(** [datetime.date]; compared as the triple (year, month, day). *)
Record date := mkdate { year : nat; month : nat; day : nat }.

Definition date_ltb (a b : date) : bool :=
  (year a <? year b)
  || ((year a =? year b)
      && ((month a <? month b)
          || ((month a =? month b) && (day a <? day b)))).

(** [a] is strictly before [b] *)
Definition date_lt (a b : date) : Prop :=
  year a < year b
  ∨ (year a = year b
     ∧ (month a < month b ∨ (month a = month b ∧ day a < day b))).

Inductive cell :=
  | NaN                 (* float nan, the missing value of read_csv *)
  | NaT                 (* the missing date *)
  | Str (s : string)
  | DateV (d : date).

Global Instance date_eq_dec : EqDecision date.
Proof. solve_decision. Defined.
Global Instance cell_eq_dec : EqDecision cell.
Proof. solve_decision. Defined.
Global Instance cell_inhabited : Inhabited cell := populate NaN.

(** [pd.notna(x)] *)
Definition notna (c : cell) : bool :=
  match c with NaN | NaT => false | _ => true end.

(** [str(x)] *)
Definition py_str (c : cell) : string :=
  match c with
  | NaN => "nan"
  | NaT => "NaT"
  | Str s => s
  | DateV d =>
      Py.zfill 4 (year d) +:+ "-" +:+ Py.zfill 2 (month d)
      +:+ "-" +:+ Py.zfill 2 (day d)
  end.

(** [x == k] for a string literal [k] *)
Definition eq_str (c : cell) (k : string) : bool := bool_decide (c = Str k).

(** [a > b]: dates with dates, text with text; anything else is a
    TypeError ([None]). *)
Definition cell_gt (a b : cell) : option bool :=
  match a, b with
  | DateV x, DateV y => Some (date_ltb y x)
  | Str x, Str y => Some (String.ltb y x)
  | _, _ => None
  end.


(** ** Series and DataFrames *)

(** A Series is read through its index; positions it does not fill are
    missing values, as after pandas' index alignment. *)
Definition series := nat → cell.

Definition iat (l : list cell) : series := λ i, default NaN (l !! i).

Definition tabulate (n : nat) (s : series) : list cell := s <$> seq 0 n.

(** A DataFrame with the default RangeIndex [0 .. nrows-1]. *)
Record DataFrame := mkdf { nrows : nat; columns : gmap string (list cell) }.

(** [c in df.columns] *)
Definition has_column (df : DataFrame) (c : string) : bool :=
  bool_decide (is_Some (columns df !! c)).

(** [df[c]], [None] for a KeyError *)
Definition getitem (df : DataFrame) (c : string) : option series :=
  iat <$> (columns df !! c).

(** [df[c] = s] *)
Definition setitem (c : string) (s : series) (df : DataFrame) : DataFrame :=
  mkdf (nrows df) (<[c := tabulate (nrows df) s]> (columns df)).

(** The row that [iterrows] yields at position [i], as [row.to_dict()]. *)
Definition row_of (df : DataFrame) (i : nat) : gmap string cell :=
  (λ l, iat l i) <$> columns df.

Module Series.

(** [s.astype(str)]: a missing value becomes the text "nan" *)
Definition astype_str (s : series) : series := λ i, Str (py_str (s i)).

(** [s.str[0]]: missing when there is no first character *)
Definition str_get0 (s : series) : series := λ i,
  match s i with
  | Str (String c _) => Str (String c EmptyString)
  | _ => NaN
  end.

(** [s.str.upper()], for a given [str.upper] *)
Definition str_upper (upper : string → string) (s : series) : series :=
  λ i, match s i with Str x => Str (upper x) | _ => NaN end.

(** [s.str.strip()] *)
Definition str_strip (s : series) : series := λ i,
  match s i with Str x => Str (Py.strip x) | _ => NaN end.

(** [s.str.split('.').str[0]] *)
Definition str_split_dot_get0 (s : series) : series := λ i,
  match s i with
  | Str x => match Py.split "." x with y :: _ => Str y | [] => NaN end
  | _ => NaN
  end.

(** [s + k] and [s + t] on object columns: text is concatenated, a
    missing operand gives a missing result *)
Definition add_lit (s : series) (k : string) : series := λ i,
  match s i with Str x => Str (x +:+ k) | _ => NaN end.

Definition add (s t : series) : series := λ i,
  match s i, t i with Str x, Str y => Str (x +:+ y) | _, _ => NaN end.

(** [s.notna()] and [s.where(cond, other)] *)
Definition notna (s : series) : nat → bool := λ i, notna (s i).

Definition where_ (s : series) (cond : nat → bool) (other : cell) : series :=
  λ i, if cond i then s i else other.

(** [s.fillna(v)] *)
Definition fillna (s : series) (v : cell) : series := λ i,
  if notna s i then s i else v.

End Series.

(** ** The interpreter state: objects, files, exceptions *)

Inductive exn :=
  | ValueError (msg : string)
  | KeyError (k : string)
  | TypeError
  | InvalidRef.             (* a name bound to no object: never happens *)

Inductive result (A : Type) :=
  | Ok (a : A)
  | Raise (e : exn).
Arguments Ok {A} a.
Arguments Raise {A} e.

(** DataFrame objects live on the heap; [files] is the file system as
    [to_csv] leaves it, [written] the [to_csv] calls in the order they
    were made, [dirs] what [os.makedirs] has created. *)
Record world := mkworld {
  heap : gmap nat DataFrame;
  files : gmap string DataFrame;
  written : list (string * DataFrame);
  dirs : gset string
}.

Definition put (r : nat) (df : DataFrame) (w : world) : world :=
  mkworld (<[r := df]> (heap w)) (files w) (written w) (dirs w).

Definition save (path : string) (df : DataFrame) (w : world) : world :=
  mkworld (heap w) (<[path := df]> (files w)) (written w ++ [(path, df)])
    (dirs w).

Definition M (A : Type) : Type := world → result A * world.

Definition ret {A} (a : A) : M A := λ w, (Ok a, w).
Definition raise {A} (e : exn) : M A := λ w, (Raise e, w).
Definition lift {A} (r : result A) : M A := λ w, (r, w).
Definition bind {A B} (m : M A) (k : A → M B) : M B := λ w,
  match m w with
  | (Ok a, w') => k a w'
  | (Raise e, w') => (Raise e, w')
  end.

Notation "'let*' x ':=' c 'in' k" := (bind c (λ x, k))
  (at level 10, x name, c at level 100, k at level 200).
Notation "c ';;' k" := (bind c (λ _, k))
  (at level 100, k at level 200, right associativity).

(** A new DataFrame object ([read_csv], [copy()]). *)
Definition alloc (df : DataFrame) : M nat := λ w,
  let r := fresh (dom (heap w)) in (Ok r, put r df w).

Definition load (r : nat) : M DataFrame := λ w,
  match heap w !! r with
  | Some df => (Ok df, w)
  | None => (Raise InvalidRef, w)
  end.

(** In-place update of the object [r]. *)
Definition modify (r : nat) (f : DataFrame → result DataFrame) : M unit :=
  let* df := load r in
  match f df with
  | Ok df' => λ w, (Ok tt, put r df' w)
  | Raise e => raise e
  end.

(** [df.copy()]: a deep copy, a new object *)
Definition df_copy (r : nat) : M nat :=
  let* df := load r in alloc df.

(** [df.to_csv(path)]: the file at [path] is created or replaced *)
Definition to_csv (r : nat) (path : string) : M unit :=
  let* df := load r in λ w, (Ok tt, save path df w).

(** [os.makedirs(folder, exist_ok=True)] *)
Definition makedirs (folder : string) : M unit := λ w,
  (Ok tt, mkworld (heap w) (files w) (written w) ({[folder]} ∪ dirs w)).

(** [for i in range(n): body(i)] *)
Fixpoint for_each (idx : list nat) (body : nat → M unit) : M unit :=
  match idx with
  | [] => ret tt
  | i :: rest => body i ;; for_each rest body
  end.

(** ** Column names *)

Definition KEY := "JSON Schema 5.0 Data Field".
Definition VALUE := "Value from the Source or as determined by Supplier".
Definition GIVEN := "awardeeDetail/affiliationOf/givenName".
Definition FAMILY := "awardeeDetail/affiliationOf/familyName".
Definition NAME := "awardeeDetail/affiliationOf/name".
Definition INITIALS := "awardeeDetail/affiliationOf/initials".
Definition AWARD := "fundingBodyAwardId".
Definition END_DATE := "endDate".
Definition CREATED := "createdOn".
Definition AMOUNT := "fundingDetail/fundingTotal/amount".
Definition DEPT := "awardeeDetail/departmentName".
Definition ORCID := "awardeeDetail/affiliationOf/identifier/id/orcid".
Definition STATUS := "funds/status".
Definition GRANT := "grantAwardId".
Definition NOT_FOUND := Str "NOT FOUND".

(** ** The script *)

(** What [.dt.date] leaves in a cell: a date, or NaT where parsing was
    coerced. *)
Definition date_cell (o : option date) : cell :=
  match o with Some d => DateV d | None => NaT end.

(** How a run of [map_csv_to_csv] ends when no exception escapes: an
    [[ERROR]] message and an early [return], or the end of the loop. *)
Inductive outcome :=
  | Aborted (msg : string)
  | Completed.

(** [df.loc[df[kcol] == k, vcol] = v]: the value column is created, all
    missing, when the frame has none. *)
Definition loc_set (kcol k vcol : string) (v : cell) (df : DataFrame)
  : result DataFrame :=
  match getitem df kcol with
  | None => Raise (KeyError kcol)
  | Some keys =>
      let old := default (λ _, NaN) (getitem df vcol) in
      Ok (setitem vcol (λ i, if eq_str (keys i) k then v else old i) df)
  end.

(** [update_value], a closure over the row's [source_mapping] *)
Definition update_value (source_mapping : gmap string cell)
    (field_name current_value : cell) : cell :=
  if notna current_value && negb (eq_str current_value "")
  then current_value
  else match field_name with
       | Str k => default NOT_FOUND (source_mapping !! k)
       | _ => NOT_FOUND
       end.

(** [df[VALUE] = df.apply(lambda row: update_value(row[KEY], row[VALUE]),
    axis=1)] *)
Definition apply_update_value (source_mapping : gmap string cell)
    (df : DataFrame) : result DataFrame :=
  match getitem df KEY, getitem df VALUE with
  | None, _ => Raise (KeyError KEY)
  | _, None => Raise (KeyError VALUE)
  | Some keys, Some vals =>
      Ok (setitem VALUE (λ i, update_value source_mapping (keys i) (vals i)) df)
  end.

(** [pd.notna(row.get(k))]: [None] is not a value either *)
Definition row_notna (row : gmap string cell) (k : string) : bool :=
  match row !! k with Some c => notna c | None => false end.

(** [row[k]] *)
Definition row_getitem (row : gmap string cell) (k : string) : result cell :=
  match row !! k with Some c => Ok c | None => Raise (KeyError k) end.

(** Lines 94-97 *)
Definition funds_status (row : gmap string cell) : result string :=
  if row_notna row END_DATE && row_notna row CREATED then
    match row_getitem row END_DATE, row_getitem row CREATED with
    | Ok e, Ok c =>
        match cell_gt e c with
        | Some true => Ok "OPEN"
        | Some false => Ok "CLOSED"
        | None => Raise TypeError
        end
    | Raise x, _ | _, Raise x => Raise x
    end
  else Ok "UNKNOWN".

(** The name under which a row is saved: its grantAwardId, or
    [row_<index + 1>]. *)
Definition grant_award_id (index : nat) (row : gmap string cell) : string :=
  let fallback := "row_" +:+ Py.str_of_nat (index + 1) in
  let g := Py.strip (py_str (default (Str fallback) (row !! GRANT))) in
  if bool_decide (g = "") || bool_decide (Py.lower g = "nan")
  then fallback else g.

Definition output_file (output_folder id : string) : string :=
  Py.path_join output_folder ("mapped_output_" +:+ id +:+ ".csv").

Definition col (r : nat) (c : string) : M series :=
  let* df := load r in
  match getitem df c with Some s => ret s | None => raise (KeyError c) end.

Definition assign (r : nat) (c : string) (s : series) : M unit :=
  modify r (λ df, Ok (setitem c s df)).

(** A column read with missing values where the frame has none. *)
Definition column (df : DataFrame) (c : string) : series :=
  default (λ _, NaN) (getitem df c).

Definition in_columns (c : string) (r : nat) : M bool :=
  let* df := load r in ret (has_column df c).

Section Script.

(** Two library functions stay abstract: Python's [str.upper] (its
    result can leave Latin-1) and pandas' date parser
    [pd.to_datetime(column, errors="coerce", dayfirst=True).dt.date],
    which sees the whole column and yields, per position, a date or
    nothing. *)
Variable upper : string → string.
Variable to_datetime : list cell → nat → option date.

Definition dt_date (column : list cell) : series := λ i,
  date_cell (to_datetime column i).

(** Lines 25-26 *)
Definition derive_initials (source_df : nat) : M unit :=
  let* given := col source_df GIVEN in
  assign source_df INITIALS
    (Series.add_lit
       (Series.str_upper upper (Series.str_get0 (Series.astype_str given)))
       ".") ;;
  let* initials := col source_df INITIALS in
  let* given := col source_df GIVEN in
  assign source_df INITIALS
    (Series.where_ initials (Series.notna given) (Str "")).

(** Lines 33-34 *)
Definition clean_award_id (source_df : nat) : M unit :=
  let* a := col source_df AWARD in
  assign source_df AWARD (Series.str_strip (Series.astype_str a)) ;;
  let* a := col source_df AWARD in
  assign source_df AWARD (Series.fillna a NOT_FOUND).

(** Lines 42-45 *)
Definition derive_name (source_df : nat) : M unit :=
  let* given := col source_df GIVEN in
  let* family := col source_df FAMILY in
  assign source_df NAME
    (Series.str_strip
       (Series.add (Series.add_lit (Series.fillna given (Str "")) " ")
                   (Series.fillna family (Str "")))).

(** Lines 49-50 *)
Definition parse_date (source_df : nat) (c : string) : M unit :=
  let* df := load source_df in
  let* s := col source_df c in
  assign source_df c (dt_date (tabulate (nrows df) s)).

(** Lines 57-58 *)
Definition whole_amount (source_df : nat) : M unit :=
  let* a := col source_df AMOUNT in
  assign source_df AMOUNT (Series.str_split_dot_get0 (Series.astype_str a)) ;;
  let* a := col source_df AMOUNT in
  assign source_df AMOUNT (Series.fillna a NOT_FOUND).

(** Lines 65 and 72 *)
Definition fill_not_found (source_df : nat) (c : string) : M unit :=
  let* s := col source_df c in
  assign source_df c (Series.fillna s NOT_FOUND).

(** The body of the loop, lines 79-128 *)
Definition map_row (source_df target_df : nat) (output_folder : string)
    (index : nat) : M unit :=
  let* s := load source_df in
  let row := row_of s index in
  let source_mapping := row in
  let* updated_target_df := df_copy target_df in
  let* v := lift (row_getitem row AWARD) in
  modify updated_target_df (loc_set KEY AWARD VALUE v) ;;
  modify updated_target_df (apply_update_value source_mapping) ;;
  let* status := lift (funds_status row) in
  modify updated_target_df (loc_set KEY STATUS VALUE (Str status)) ;;
  let* v := lift (row_getitem row INITIALS) in
  modify updated_target_df (loc_set KEY INITIALS VALUE v) ;;
  let* v := lift (row_getitem row AMOUNT) in
  modify updated_target_df (loc_set KEY AMOUNT VALUE v) ;;
  let* v := lift (row_getitem row DEPT) in
  modify updated_target_df (loc_set KEY DEPT VALUE v) ;;
  let* v := lift (row_getitem row ORCID) in
  modify updated_target_df (loc_set KEY ORCID VALUE v) ;;
  to_csv updated_target_df
    (output_file output_folder (grant_award_id index row)).

(** The loop, line 78 *)
Definition map_rows (source_df target_df : nat) (output_folder : string)
    : M unit :=
  let* s := load source_df in
  for_each (seq 0 (nrows s)) (map_row source_df target_df output_folder).

(** Lines 24-75: the per-column checks and normalisations, then the
    loop.  A missing column prints its message and returns. *)
Definition normalise_and_map (source_df target_df : nat)
    (output_folder : string) : M outcome :=
  let* b := in_columns GIVEN source_df in
  if negb b
  then ret (Aborted "[ERROR] Given name column is missing in the Source CSV!")
  else
  derive_initials source_df ;;
  let* b := in_columns AWARD source_df in
  if negb b
  then ret (Aborted
    "[ERROR] 'fundingBodyAwardId' column is missing in the Source CSV!")
  else
  clean_award_id source_df ;;
  let* b1 := in_columns GIVEN source_df in
  let* b2 := in_columns FAMILY source_df in
  (if b1 && b2 then derive_name source_df else ret tt) ;;
  let* b1 := in_columns END_DATE source_df in
  let* b2 := in_columns CREATED source_df in
  if negb (b1 && b2)
  then ret (Aborted
    "[ERROR] 'endDate' or 'createdOn' column is missing in the Source CSV!")
  else
  parse_date source_df END_DATE ;;
  parse_date source_df CREATED ;;
  let* b := in_columns AMOUNT source_df in
  if negb b
  then ret (Aborted
    "[ERROR] 'fundingDetail/fundingTotal/amount' column is missing in the Source CSV!")
  else
  whole_amount source_df ;;
  let* b := in_columns DEPT source_df in
  if negb b
  then ret (Aborted
    "[ERROR] 'awardeeDetail/departmentName' column is missing in the Source CSV!")
  else
  fill_not_found source_df DEPT ;;
  let* b := in_columns ORCID source_df in
  if negb b
  then ret (Aborted
    "[ERROR] 'awardeeDetail/affiliationOf/identifier/id/orcid' column is missing in the Source CSV!")
  else
  fill_not_found source_df ORCID ;;
  map_rows source_df target_df output_folder ;;
  ret Completed.

(** [map_csv_to_csv], from the two tables [read_csv] returned. *)
Definition map_csv_to_csv (source_csv target_csv : DataFrame)
    (output_folder : string) : M outcome :=
  let* source_df := alloc source_csv in
  let* target_df := alloc target_csv in
  let* b := in_columns KEY target_df in
  if negb b
  then raise (ValueError
    "[ERROR] Target CSV must contain a 'JSON Schema 5.0 Data Field' column")
  else
  makedirs output_folder ;;
  normalise_and_map source_df target_df output_folder.

(** *** The tables the script builds, as functions of its inputs

    [normalise] is the source table as the loop sees it and
    [target_record] the table saved for one row; [normalise_run] and
    [map_row_run] below show that the script computes them. *)

Definition initials_step (df : DataFrame) : DataFrame :=
  let given := column df GIVEN in
  setitem INITIALS
    (Series.where_
       (Series.add_lit
          (Series.str_upper upper (Series.str_get0 (Series.astype_str given)))
          ".")
       (Series.notna given) (Str "")) df.

Definition award_step (df : DataFrame) : DataFrame :=
  setitem AWARD
    (Series.fillna (Series.str_strip (Series.astype_str (column df AWARD)))
       NOT_FOUND) df.

Definition name_step (df : DataFrame) : DataFrame :=
  if has_column df GIVEN && has_column df FAMILY then
    setitem NAME
      (Series.str_strip
         (Series.add
            (Series.add_lit (Series.fillna (column df GIVEN) (Str "")) " ")
            (Series.fillna (column df FAMILY) (Str "")))) df
  else df.

Definition date_step (c : string) (df : DataFrame) : DataFrame :=
  setitem c (dt_date (tabulate (nrows df) (column df c))) df.

Definition amount_step (df : DataFrame) : DataFrame :=
  setitem AMOUNT
    (Series.fillna
       (Series.str_split_dot_get0 (Series.astype_str (column df AMOUNT)))
       NOT_FOUND) df.

Definition fill_step (c : string) (df : DataFrame) : DataFrame :=
  setitem c (Series.fillna (column df c) NOT_FOUND) df.

Definition normalise (df : DataFrame) : DataFrame :=
  fill_step ORCID
    (fill_step DEPT
       (amount_step
          (date_step CREATED
             (date_step END_DATE
                (name_step (award_step (initials_step df))))))).

End Script.

(** The value one template field ends with, from its key and the value
    the template holds for it: lines 86-112 read along one row of the
    template. *)
Definition field_value (row : gmap string cell) (status : string)
    (key old : cell) : cell :=
  let at_ (k : string) := default NaN (row !! k) in
  let v := if eq_str key AWARD then at_ AWARD else old in
  let v := update_value row key v in
  let v := if eq_str key STATUS then Str status else v in
  let v := if eq_str key INITIALS then at_ INITIALS else v in
  let v := if eq_str key AMOUNT then at_ AMOUNT else v in
  let v := if eq_str key DEPT then at_ DEPT else v in
  if eq_str key ORCID then at_ ORCID else v.

Definition target_record (row : gmap string cell) (status : string)
    (tdf : DataFrame) : DataFrame :=
  setitem VALUE
    (λ i, field_value row status (column tdf KEY i) (column tdf VALUE i)) tdf.

(** The status text of a row, and the table saved for row [i] of a
    normalised source table. *)
Definition status_of (row : gmap string cell) : string :=
  match funds_status row with Ok s => s | Raise _ => "" end.

Definition record_of (sdf tdf : DataFrame) (i : nat) : DataFrame :=
  target_record (row_of sdf i) (status_of (row_of sdf i)) tdf.

Definition path_of (output_folder : string) (sdf : DataFrame) (i : nat)
  : string :=
  output_file output_folder (grant_award_id i (row_of sdf i)).

(** What the loop over [idx] appends to [written] and leaves in
    [files]. *)
Definition writes (folder : string) (sdf tdf : DataFrame) (idx : list nat)
  : list (string * DataFrame) :=
  (λ i, (path_of folder sdf i, record_of sdf tdf i)) <$> idx.

Definition files_after (folder : string) (sdf tdf : DataFrame)
    (idx : list nat) (fs : gmap string DataFrame) : gmap string DataFrame :=
  foldl (λ fs i, <[path_of folder sdf i := record_of sdf tdf i]> fs) fs idx.

(** The schema keys that lines 86 and 100-112 write whatever the template
    holds. *)
Definition override_keys : list string :=
  [AWARD; STATUS; INITIALS; AMOUNT; DEPT; ORCID].

(** What [update_value] falls back to: [source_mapping.get(key,
    "NOT FOUND")]. *)
Definition source_value (row : gmap string cell) (key : cell) : cell :=
  match key with
  | Str k => default NOT_FOUND (row !! k)
  | _ => NOT_FOUND
  end.

(** A template value that counts as blank: missing, or the empty text. *)
Definition blank (v : cell) : Prop := notna v = false ∨ v = Str "".

(** The columns a row must carry for lines 86-112 to read it. *)
Definition row_columns : list string := [AWARD; INITIALS; AMOUNT; DEPT; ORCID].

(** The source columns the script insists on. *)
Definition required_columns : list string :=
  [GIVEN; AWARD; END_DATE; CREATED; AMOUNT; DEPT; ORCID].

Definition has_required (df : DataFrame) : bool :=
  forallb (has_column df) required_columns.

(** [m] changes no object but [r]. *)
Definition touches {A} (r : nat) (m : M A) : Prop :=
  ∀ w res w', m w = (res, w') → ∀ r', r' ≠ r → heap w' !! r' = heap w !! r'.

(** Text with no white space in it. *)
Fixpoint no_space (s : string) : bool :=
  match s with
  | String c s' => negb (Py.is_space c) && no_space s'
  | EmptyString => true
  end.

(** ** Concrete instances for running the script

    [ascii_upper] is [str.upper] on ASCII text; [iso_dates] parses the
    cells that read "YYYY-MM-DD", each on its own, and rejects all others. *)

Definition ascii_upper_char (c : ascii) : ascii :=
  let n := Py.code c in
  if (97 <=? n) && (n <=? 122) then ascii_of_nat (n - 32) else c.

Fixpoint ascii_upper (s : string) : string :=
  match s with
  | String c s' => String (ascii_upper_char c) (ascii_upper s')
  | EmptyString => EmptyString
  end.

Definition digit (c : ascii) : option nat :=
  let n := Py.code c in
  if (48 <=? n) && (n <=? 57) then Some (n - 48) else None.

Fixpoint number (acc : nat) (s : string) : option nat :=
  match s with
  | EmptyString => Some acc
  | String c s' =>
      match digit c with
      | Some d => number (10 * acc + d) s'
      | None => None
      end
  end.

Definition iso_date (c : cell) : option date :=
  match c with
  | Str s =>
      if bool_decide (String.length s = 10)
         && String.eqb (String.substring 4 1 s) "-"
         && String.eqb (String.substring 7 1 s) "-"
      then
        match number 0 (String.substring 0 4 s),
              number 0 (String.substring 5 2 s),
              number 0 (String.substring 8 2 s) with
        | Some y, Some m, Some d => Some (mkdate y m d)
        | _, _, _ => None
        end
      else None
  | _ => None
  end.

Definition iso_dates (column : list cell) (i : nat) : option date :=
  iso_date (iat column i).

Definition empty_world : world := mkworld ∅ ∅ [] ∅.

Definition frame (n : nat) (cols : list (string * list cell)) : DataFrame :=
  mkdf n (list_to_map cols).

Definition run (source_csv target_csv : DataFrame) (output_folder : string)
  : result outcome * world :=
  map_csv_to_csv ascii_upper iso_dates source_csv target_csv output_folder
    empty_world.

(** ** A small run

    Three source rows - the second with no givenName, award id, department
    or grantAwardId, the first and third with the same grantAwardId - and a
    template of six fields, some filled in advance. *)

Definition demo_source : DataFrame := frame 3 [
  (GIVEN, [Str "Jane"; NaN; Str "bob"]);
  (FAMILY, [Str "Doe"; Str "Roe"; NaN]);
  (AWARD, [Str " 11/0004192 "; NaN; Str "X"]);
  (END_DATE, [Str "2021-05-01"; Str "2021-01-01"; NaN]);
  (CREATED, [Str "2021-01-01"; Str "2021-01-01"; Str "2021-01-01"]);
  (AMOUNT, [Str "1234.99"; Str "1234"; NaN]);
  (DEPT, [Str "Physics"; NaN; Str "Chem"]);
  (ORCID, [NaN; Str "0000-1"; Str "0000-2"]);
  (GRANT, [Str " G1 "; Str "NaN"; Str "G1"])].

Definition demo_template : DataFrame := frame 6 [
  (KEY, [Str AWARD; Str STATUS; Str INITIALS; Str "static"; Str NAME;
         Str "missing"]);
  (VALUE, [Str "old"; NaN; Str "x"; Str "keep"; NaN; Str ""])].

Definition demo_world : world := snd (run demo_source demo_template "out").

(** The [i]-th [to_csv] call of the small run. *)
Definition demo_written (i : nat) : string * DataFrame :=
  default ("", mkdf 0 ∅) (written demo_world !! i).

(** A source table without the fundingBodyAwardId column. *)
Definition demo_no_award : DataFrame := frame 1 [(GIVEN, [Str "Jane"])].

(** ** More of the script: what the remaining lines leave behind *)

(** The columns that lines 25-72 write; every other source column reaches
    the loop as [read_csv] returned it. *)
Definition derived_columns : list string :=
  [INITIALS; AWARD; NAME; END_DATE; CREATED; AMOUNT; DEPT; ORCID].

(** The text of a cell after [fillna('')]. *)
Definition text_or_empty (c : cell) : string :=
  match c with Str s => s | _ => "" end.

(** A cell as [read_csv] returns it: a text or the missing value. *)
Definition is_raw (c : cell) : Prop :=
  match c with NaN | Str _ => True | _ => False end.


(** A source table with the seven required columns and no familyName. *)
Definition demo_no_family : DataFrame := frame 2 [
  (GIVEN, [Str "Ann"; NaN]);
  (AWARD, [Str "A1"; Str "A2"]);
  (END_DATE, [Str "2022-01-01"; NaN]);
  (CREATED, [Str "2021-01-01"; Str "2021-01-01"]);
  (AMOUNT, [Str "10.5"; Str "7"]);
  (DEPT, [Str "Maths"; NaN]);
  (ORCID, [NaN; Str "0000-3"]);
  (NAME, [Str "given in the source"; NaN])].

Definition demo_world_no_family : world :=
  snd (run demo_no_family demo_template "out").

(** The small run again, with its first written table as the template. *)
Definition demo_world_again : world :=
  snd (run demo_source (demo_written 0).2 "out").

(** ** Frames: reading back what was assigned *)

Lemma iat_tabulate n (s : series) i : i < n → iat (tabulate n s) i = s i.
Proof.
  intros Hi. unfold iat, tabulate.
  rewrite list_lookup_fmap, lookup_seq_lt by done. reflexivity.
Qed.

Lemma tabulate_ext n (s t : series) :
  (∀ i, i < n → s i = t i) → tabulate n s = tabulate n t.
Proof.
  intros H. unfold tabulate. apply list_eq. intros i.
  rewrite !list_lookup_fmap.
  destruct (decide (i < n)) as [Hi|Hi].
  - rewrite lookup_seq_lt by done. simpl. f_equal. auto.
  - rewrite lookup_seq_ge by lia. reflexivity.
Qed.

Lemma nrows_setitem c s df : nrows (setitem c s df) = nrows df.
Proof. reflexivity. Qed.

Lemma setitem_ext c (s t : series) df :
  (∀ i, i < nrows df → s i = t i) → setitem c s df = setitem c t df.
Proof. intros H. unfold setitem. by rewrite (tabulate_ext _ s t). Qed.

Lemma setitem_setitem c (s t : series) df :
  setitem c t (setitem c s df) = setitem c t df.
Proof. unfold setitem. simpl. by rewrite insert_insert_eq. Qed.

Lemma column_setitem_eq c (s : series) df i :
  i < nrows df → column (setitem c s df) c i = s i.
Proof.
  intros Hi. unfold column, getitem, setitem. simpl.
  rewrite lookup_insert_eq. simpl. by apply iat_tabulate.
Qed.

Lemma column_setitem_ne c c' (s : series) df :
  c ≠ c' → column (setitem c s df) c' = column df c'.
Proof.
  intros Hne. unfold column, getitem, setitem. simpl.
  by rewrite lookup_insert_ne.
Qed.

Lemma has_column_setitem c c' (s : series) df :
  has_column (setitem c s df) c' = bool_decide (c = c') || has_column df c'.
Proof.
  unfold has_column, setitem. simpl.
  destruct (decide (c = c')) as [->|Hne].
  - rewrite lookup_insert_eq, (bool_decide_eq_true_2 (c' = c')) by done.
    apply bool_decide_eq_true_2. eauto.
  - rewrite lookup_insert_ne, (bool_decide_eq_false_2 (c = c')) by done.
    reflexivity.
Qed.

Lemma has_column_true df c :
  has_column df c = true ↔ ∃ l, columns df !! c = Some l.
Proof. unfold has_column. rewrite bool_decide_eq_true. reflexivity. Qed.

Lemma getitem_column df c s : getitem df c = Some s → column df c = s.
Proof. unfold column. by intros ->. Qed.

Lemma row_of_lookup df i c :
  row_of df i !! c = (λ l, iat l i) <$> (columns df !! c).
Proof. unfold row_of. apply lookup_fmap. Qed.

Lemma row_of_column df i c :
  has_column df c = true → row_of df i !! c = Some (column df c i).
Proof.
  rewrite has_column_true. intros [l Hl].
  rewrite row_of_lookup. unfold column, getitem. by rewrite Hl.
Qed.

Lemma row_of_missing df i c :
  has_column df c = false → row_of df i !! c = None.
Proof.
  unfold has_column. rewrite bool_decide_eq_false, <- eq_None_not_Some.
  intros H. by rewrite row_of_lookup, H.
Qed.

(** ** Running the primitives *)

Lemma bind_run {A B} (m : M A) (k : A → M B) w a w' :
  m w = (Ok a, w') → bind m k w = k a w'.
Proof. unfold bind. by intros ->. Qed.

Lemma bind_raise {A B} (m : M A) (k : A → M B) w e w' :
  m w = (Raise e, w') → bind m k w = (Raise e, w').
Proof. unfold bind. by intros ->. Qed.

Lemma heap_put_eq r df w : heap (put r df w) !! r = Some df.
Proof. apply lookup_insert_eq. Qed.

Lemma heap_put_ne r r' df w : r ≠ r' → heap (put r df w) !! r' = heap w !! r'.
Proof. intros. by apply lookup_insert_ne. Qed.

Lemma put_put r a b w : put r b (put r a w) = put r b w.
Proof. unfold put. simpl. by rewrite insert_insert_eq. Qed.

Lemma load_run r w df : heap w !! r = Some df → load r w = (Ok df, w).
Proof. unfold load. by intros ->. Qed.

Lemma in_columns_run c r w df :
  heap w !! r = Some df → in_columns c r w = (Ok (has_column df c), w).
Proof. intros H. unfold in_columns. by rewrite (bind_run _ _ _ _ _ (load_run _ _ _ H)). Qed.

Lemma col_run r c w df :
  heap w !! r = Some df → has_column df c = true →
  col r c w = (Ok (column df c), w).
Proof.
  intros H Hc. unfold col. rewrite (bind_run _ _ _ _ _ (load_run _ _ _ H)).
  apply has_column_true in Hc as [l Hl].
  unfold column, getitem. by rewrite Hl.
Qed.

Lemma col_missing r c w df :
  heap w !! r = Some df → has_column df c = false →
  col r c w = (Raise (KeyError c), w).
Proof.
  intros H Hc. unfold col. rewrite (bind_run _ _ _ _ _ (load_run _ _ _ H)).
  unfold has_column in Hc. apply bool_decide_eq_false in Hc.
  apply eq_None_not_Some in Hc. unfold getitem. by rewrite Hc.
Qed.

Lemma modify_run r f w df df' :
  heap w !! r = Some df → f df = Ok df' →
  modify r f w = (Ok tt, put r df' w).
Proof.
  intros H Hf. unfold modify.
  rewrite (bind_run _ _ _ _ _ (load_run _ _ _ H)). by rewrite Hf.
Qed.

Lemma assign_run r c s w df :
  heap w !! r = Some df → assign r c s w = (Ok tt, put r (setitem c s df) w).
Proof. intros H. unfold assign. by apply modify_run with df. Qed.

Lemma to_csv_run r path w df :
  heap w !! r = Some df → to_csv r path w = (Ok tt, save path df w).
Proof.
  intros H. unfold to_csv. by rewrite (bind_run _ _ _ _ _ (load_run _ _ _ H)).
Qed.

Lemma lift_run {A} (x : result A) a w : x = Ok a → lift x w = (Ok a, w).
Proof. by intros ->. Qed.

Lemma has_column_setitem_same c s df : has_column (setitem c s df) c = true.
Proof. rewrite has_column_setitem. by rewrite bool_decide_eq_true_2. Qed.

Lemma has_column_setitem_keep c c' s df :
  has_column df c' = true → has_column (setitem c s df) c' = true.
Proof. intros H. rewrite has_column_setitem. by rewrite H, orb_true_r. Qed.

Create HintDb frame.
#[export] Hint Resolve heap_put_eq has_column_setitem_same
  has_column_setitem_keep : frame.

(** One statement of a straight-line block has run: rewrite it away. *)
Tactic Notation "ran" uconstr(H) :=
  erewrite bind_run by (eapply H; eauto 20 with frame).
Tactic Notation "ran" uconstr(H) "by" tactic3(t) :=
  erewrite bind_run by (eapply H; [eauto 20 with frame .. | t]).

(** ** The normalisation steps compute [normalise] *)

Section NormaliseRun.

Variable upper : string → string.
Variable to_datetime : list cell → nat → option date.

Lemma derive_initials_run r w df :
  heap w !! r = Some df → has_column df GIVEN = true →
  derive_initials upper r w = (Ok tt, put r (initials_step upper df) w).
Proof.
  intros H Hg. unfold derive_initials.
  ran col_run. ran assign_run. ran col_run. ran col_run.
  erewrite assign_run by apply heap_put_eq.
  rewrite put_put, setitem_setitem. do 2 f_equal.
  unfold initials_step. apply setitem_ext. intros i Hi.
  unfold Series.where_, Series.notna.
  rewrite column_setitem_ne by done.
  by rewrite column_setitem_eq.
Qed.

Lemma clean_award_id_run r w df :
  heap w !! r = Some df → has_column df AWARD = true →
  clean_award_id r w = (Ok tt, put r (award_step df) w).
Proof.
  intros H Hg. unfold clean_award_id.
  ran col_run. ran assign_run. ran col_run.
  erewrite assign_run by apply heap_put_eq.
  rewrite put_put, setitem_setitem. do 2 f_equal.
  unfold award_step. apply setitem_ext. intros i Hi.
  unfold Series.fillna, Series.notna.
  by rewrite column_setitem_eq.
Qed.

Lemma whole_amount_run r w df :
  heap w !! r = Some df → has_column df AMOUNT = true →
  whole_amount r w = (Ok tt, put r (amount_step df) w).
Proof.
  intros H Hg. unfold whole_amount.
  ran col_run. ran assign_run. ran col_run.
  erewrite assign_run by apply heap_put_eq.
  rewrite put_put, setitem_setitem. do 2 f_equal.
  unfold amount_step. apply setitem_ext. intros i Hi.
  unfold Series.fillna, Series.notna.
  by rewrite column_setitem_eq.
Qed.

Lemma derive_name_run r w df :
  heap w !! r = Some df →
  has_column df GIVEN = true → has_column df FAMILY = true →
  derive_name r w = (Ok tt, put r (name_step df) w).
Proof.
  intros H Hg Hf. unfold derive_name, name_step. rewrite Hg, Hf. simpl.
  ran col_run. ran col_run. by erewrite assign_run.
Qed.

Lemma parse_date_run r c w df :
  heap w !! r = Some df → has_column df c = true →
  parse_date to_datetime r c w = (Ok tt, put r (date_step to_datetime c df) w).
Proof.
  intros H Hc. unfold parse_date.
  ran load_run. ran col_run. by erewrite assign_run.
Qed.

Lemma fill_not_found_run r c w df :
  heap w !! r = Some df → has_column df c = true →
  fill_not_found r c w = (Ok tt, put r (fill_step c df) w).
Proof.
  intros H Hc. unfold fill_not_found.
  ran col_run. by erewrite assign_run.
Qed.

End NormaliseRun.

(** ** One turn of the loop computes [target_record] *)

Lemma loc_set_ok k v df :
  has_column df KEY = true →
  loc_set KEY k VALUE v df =
  Ok (setitem VALUE
        (λ i, if eq_str (column df KEY i) k then v else column df VALUE i) df).
Proof.
  intros H. apply has_column_true in H as [l Hl].
  unfold loc_set, column, getitem. by rewrite Hl.
Qed.

Lemma apply_update_value_ok sm df :
  has_column df KEY = true → has_column df VALUE = true →
  apply_update_value sm df =
  Ok (setitem VALUE
        (λ i, update_value sm (column df KEY i) (column df VALUE i)) df).
Proof.
  intros H H'. apply has_column_true in H as [l Hl].
  apply has_column_true in H' as [l' Hl'].
  unfold apply_update_value, column, getitem. by rewrite Hl, Hl'.
Qed.

Lemma row_getitem_column df i c :
  has_column df c = true → row_getitem (row_of df i) c = Ok (column df c i).
Proof. intros H. unfold row_getitem. by rewrite row_of_column. Qed.

Lemma row_at_column df i c :
  has_column df c = true → default NaN (row_of df i !! c) = column df c i.
Proof. intros H. by rewrite row_of_column. Qed.

Lemma fresh_ref_ne (w : world) r df :
  heap w !! r = Some df → fresh (dom (heap w)) ≠ r.
Proof.
  intros H Heq. apply (is_fresh (dom (heap w))).
  rewrite Heq. apply elem_of_dom. eauto.
Qed.

Lemma df_copy_run r w df :
  heap w !! r = Some df →
  df_copy r w = (Ok (fresh (dom (heap w))), put (fresh (dom (heap w))) df w).
Proof. intros H. unfold df_copy. by ran load_run. Qed.

Lemma KEY_VALUE : VALUE ≠ KEY.
Proof. discriminate. Qed.

#[export] Hint Resolve KEY_VALUE : frame.

Lemma map_row_run s t folder i w sdf tdf :
  heap w !! s = Some sdf → heap w !! t = Some tdf →
  has_column tdf KEY = true →
  forallb (has_column sdf) row_columns = true →
  (∃ st, funds_status (row_of sdf i) = Ok st) →
  map_row s t folder i w =
  (Ok tt,
   save (path_of folder sdf i) (record_of sdf tdf i)
     (put (fresh (dom (heap w))) (record_of sdf tdf i) w)).
Proof.
  intros Hs Ht Hk Hc [st Hst]. simpl in Hc.
  repeat (apply andb_prop in Hc as [? Hc]).
  unfold map_row.
  ran load_run. ran df_copy_run.
  set (r := fresh (dom (heap w))).
  ran lift_run by (by apply row_getitem_column).
  ran modify_run by (by apply loc_set_ok).
  ran modify_run by (apply apply_update_value_ok; auto 20 with frame).
  ran lift_run by exact Hst.
  ran modify_run by (apply loc_set_ok; auto 20 with frame).
  ran lift_run by (by apply row_getitem_column).
  ran modify_run by (apply loc_set_ok; auto 20 with frame).
  ran lift_run by (by apply row_getitem_column).
  ran modify_run by (apply loc_set_ok; auto 20 with frame).
  ran lift_run by (by apply row_getitem_column).
  ran modify_run by (apply loc_set_ok; auto 20 with frame).
  ran lift_run by (by apply row_getitem_column).
  ran modify_run by (apply loc_set_ok; auto 20 with frame).
  erewrite to_csv_run by apply heap_put_eq.
  rewrite !put_put, !setitem_setitem.
  assert (Heq : ∀ a b, a = b →
    save (path_of folder sdf i) a (put r a w) =
    save (path_of folder sdf i) b (put r b w)) by (by intros ? ? ->).
  unfold path_of. f_equal. apply Heq.
  unfold record_of, target_record, status_of. rewrite Hst.
  apply setitem_ext. intros j Hj.
  repeat (rewrite column_setitem_ne by apply KEY_VALUE).
  repeat (rewrite column_setitem_eq by exact Hj).
  repeat (rewrite column_setitem_ne by apply KEY_VALUE).
  unfold field_value. by rewrite !row_at_column.
Qed.

(** ** The loop *)

Lemma for_each_map_row s t folder sdf tdf :
  has_column tdf KEY = true →
  forallb (has_column sdf) row_columns = true →
  ∀ idx w,
    (∀ i, i ∈ idx → ∃ st, funds_status (row_of sdf i) = Ok st) →
    heap w !! s = Some sdf → heap w !! t = Some tdf →
    ∃ w', for_each idx (map_row s t folder) w = (Ok tt, w')
      ∧ (∀ r df, heap w !! r = Some df → heap w' !! r = Some df)
      ∧ written w' = (written w ++ writes folder sdf tdf idx)%list
      ∧ files w' = files_after folder sdf tdf idx (files w)
      ∧ dirs w' = dirs w.
Proof.
  intros Hk Hc idx. induction idx as [|i idx IH]; intros w Hst Hs Ht.
  - exists w. simpl. rewrite app_nil_r. by repeat split.
  - simpl.
    erewrite bind_run.
    2:{ eapply map_row_run; eauto. apply Hst. by left. }
    set (r := fresh (dom (heap w))).
    set (w1 := save _ _ _).
    assert (Hkeep : ∀ r' df, heap w !! r' = Some df → heap w1 !! r' = Some df).
    { intros r' df H. unfold w1. simpl. rewrite lookup_insert_ne; [done|].
      by eapply fresh_ref_ne. }
    destruct (IH w1) as (w' & Hrun & Hh & Hw & Hf & Hd).
    { intros j Hj. apply Hst. by right. }
    { by apply Hkeep. }
    { by apply Hkeep. }
    exists w'. split; [exact Hrun|]. repeat split.
    + intros r' df H. apply Hh. by apply Hkeep.
    + rewrite Hw. unfold w1. simpl. by rewrite <- app_assoc.
    + rewrite Hf. reflexivity.
    + rewrite Hd. reflexivity.
Qed.

(** ** Columns across the normalisation steps *)

Lemma has_column_setitem_ne c c' (s : series) df :
  c' ≠ c → has_column (setitem c s df) c' = has_column df c'.
Proof.
  intros H. rewrite has_column_setitem.
  by rewrite bool_decide_eq_false_2 by congruence.
Qed.

Lemma put_id r df w : heap w !! r = Some df → put r df w = w.
Proof. intros H. destruct w. unfold put. simpl in *. by rewrite insert_id. Qed.

Section Steps.

Variable upper : string → string.
Variable to_datetime : list cell → nat → option date.

Lemma has_column_initials_step c df :
  c ≠ INITIALS →
  has_column (initials_step upper df) c = has_column df c.
Proof. apply has_column_setitem_ne. Qed.

Lemma has_column_award_step c df :
  c ≠ AWARD → has_column (award_step df) c = has_column df c.
Proof. apply has_column_setitem_ne. Qed.

Lemma has_column_name_step c df :
  c ≠ NAME → has_column (name_step df) c = has_column df c.
Proof.
  intros H. unfold name_step.
  destruct (_ && _); [by apply has_column_setitem_ne | done].
Qed.

Lemma has_column_date_step c0 c df :
  c ≠ c0 → has_column (date_step to_datetime c0 df) c = has_column df c.
Proof. apply has_column_setitem_ne. Qed.

Lemma has_column_amount_step c df :
  c ≠ AMOUNT → has_column (amount_step df) c = has_column df c.
Proof. apply has_column_setitem_ne. Qed.

Lemma has_column_fill_step c0 c df :
  c ≠ c0 → has_column (fill_step c0 df) c = has_column df c.
Proof. apply has_column_setitem_ne. Qed.

Lemma column_initials_step c df :
  c ≠ INITIALS → column (initials_step upper df) c = column df c.
Proof. intros. by apply column_setitem_ne. Qed.

Lemma column_award_step c df :
  c ≠ AWARD → column (award_step df) c = column df c.
Proof. intros. by apply column_setitem_ne. Qed.

Lemma column_name_step c df :
  c ≠ NAME → column (name_step df) c = column df c.
Proof.
  intros H. unfold name_step.
  destruct (_ && _); [by apply column_setitem_ne | done].
Qed.

Lemma column_date_step c0 c df :
  c ≠ c0 → column (date_step to_datetime c0 df) c = column df c.
Proof. intros. by apply column_setitem_ne. Qed.

Lemma column_amount_step c df :
  c ≠ AMOUNT → column (amount_step df) c = column df c.
Proof. intros. by apply column_setitem_ne. Qed.

Lemma column_fill_step c0 c df :
  c ≠ c0 → column (fill_step c0 df) c = column df c.
Proof. intros. by apply column_setitem_ne. Qed.

Lemma column_date_step_eq c df i :
  i < nrows df →
  column (date_step to_datetime c df) c i =
  date_cell (to_datetime (tabulate (nrows df) (column df c)) i).
Proof. intros Hi. unfold date_step. by rewrite column_setitem_eq. Qed.

Lemma nrows_name_step df : nrows (name_step df) = nrows df.
Proof. unfold name_step. by destruct (_ && _). Qed.

Lemma nrows_normalise df : nrows (normalise upper to_datetime df) = nrows df.
Proof. unfold normalise. simpl. by rewrite nrows_name_step. Qed.

Lemma name_block_run r w df :
  heap w !! r = Some df →
  (if has_column df GIVEN && has_column df FAMILY
   then derive_name r else ret tt) w = (Ok tt, put r (name_step df) w).
Proof.
  intros H. destruct (has_column df GIVEN) eqn:Hg;
    destruct (has_column df FAMILY) eqn:Hf; simpl;
    try by apply derive_name_run.
  all: unfold name_step; rewrite Hg, Hf; simpl; by rewrite put_id.
Qed.

End Steps.

(** Columns that survive a step: the step writes another one. *)
Ltac other_column :=
  repeat first
    [ rewrite has_column_fill_step by discriminate
    | rewrite has_column_amount_step by discriminate
    | rewrite has_column_date_step by discriminate
    | rewrite has_column_name_step by discriminate
    | rewrite has_column_award_step by discriminate
    | rewrite has_column_initials_step by discriminate
    | rewrite column_fill_step by discriminate
    | rewrite column_amount_step by discriminate
    | rewrite column_date_step by discriminate
    | rewrite column_name_step by discriminate
    | rewrite column_award_step by discriminate
    | rewrite column_initials_step by discriminate ].

Lemma funds_status_date_cells row oe oc :
  row !! END_DATE = Some (date_cell oe) →
  row !! CREATED = Some (date_cell oc) →
  funds_status row =
  Ok (match oe, oc with
      | Some e, Some c => if date_ltb c e then "OPEN" else "CLOSED"
      | _, _ => "UNKNOWN"
      end).
Proof.
  intros He Hc. unfold funds_status, row_notna, row_getitem.
  rewrite He, Hc. destruct oe as [e|], oc as [c|]; simpl; try reflexivity.
  by destruct (date_ltb c e).
Qed.

Section Normalised.

Variable upper : string → string.
Variable to_datetime : list cell → nat → option date.

Abbreviation normalise := (normalise upper to_datetime).

Lemma has_column_normalise df c :
  has_column df c = true → has_column (normalise df) c = true.
Proof.
  intros H. unfold normalise, fill_step, amount_step, date_step.
  repeat apply has_column_setitem_keep.
  unfold name_step. destruct (_ && _).
  all: unfold award_step, initials_step; auto 10 with frame.
Qed.

Lemma has_initials_normalise df :
  has_column (normalise df) INITIALS = true.
Proof.
  unfold normalise. other_column. apply has_column_setitem_same.
Qed.

Lemma column_normalise_date df c i :
  c = END_DATE ∨ c = CREATED → i < nrows df →
  column (normalise df) c i =
  date_cell (to_datetime (tabulate (nrows df) (column df c)) i).
Proof.
  intros Hc Hi. unfold normalise. other_column.
  destruct Hc as [-> | ->]; other_column.
  all: rewrite column_date_step_eq
    by (simpl; rewrite nrows_name_step; exact Hi).
  all: simpl; rewrite nrows_name_step; by other_column.
Qed.

Lemma funds_status_normalise df i :
  has_column df END_DATE = true → has_column df CREATED = true →
  i < nrows df →
  ∃ st, funds_status (row_of (normalise df) i) = Ok st.
Proof.
  intros He Hc Hi. eexists. apply funds_status_date_cells.
  - rewrite row_of_column by (by apply has_column_normalise).
    rewrite column_normalise_date by auto. reflexivity.
  - rewrite row_of_column by (by apply has_column_normalise).
    rewrite column_normalise_date by auto. reflexivity.
Qed.

End Normalised.

(** ** The whole run *)

Section Run.

Variable upper : string → string.
Variable to_datetime : list cell → nat → option date.

Abbreviation normalised := (normalise upper to_datetime).

Lemma map_rows_run s t folder w sdf tdf :
  heap w !! s = Some sdf → heap w !! t = Some tdf →
  has_column tdf KEY = true →
  forallb (has_column sdf) row_columns = true →
  (∀ i, i < nrows sdf → ∃ st, funds_status (row_of sdf i) = Ok st) →
  ∃ w', map_rows s t folder w = (Ok tt, w')
    ∧ (∀ r df, heap w !! r = Some df → heap w' !! r = Some df)
    ∧ written w' = (written w ++ writes folder sdf tdf (seq 0 (nrows sdf)))%list
    ∧ files w' = files_after folder sdf tdf (seq 0 (nrows sdf)) (files w)
    ∧ dirs w' = dirs w.
Proof.
  intros Hs Ht Hk Hc Hst. unfold map_rows. ran load_run.
  apply for_each_map_row; auto.
  intros i Hi. apply Hst. apply elem_of_seq in Hi. lia.
Qed.

Ltac aborted :=
  simpl; eexists _, _; split; [reflexivity | by repeat split].

Lemma normalise_and_map_run s t folder w src tgt :
  heap w !! s = Some src → heap w !! t = Some tgt → s ≠ t →
  has_column tgt KEY = true →
  if has_required src then
    ∃ w', normalise_and_map upper to_datetime s t folder w = (Ok Completed, w')
      ∧ heap w' !! s = Some (normalised src)
      ∧ (∀ r df, r ≠ s → heap w !! r = Some df → heap w' !! r = Some df)
      ∧ written w' =
        (written w ++ writes folder (normalised src) tgt (seq 0 (nrows src)))%list
      ∧ files w' =
        files_after folder (normalised src) tgt (seq 0 (nrows src)) (files w)
      ∧ dirs w' = dirs w
  else
    ∃ msg w',
      normalise_and_map upper to_datetime s t folder w = (Ok (Aborted msg), w')
      ∧ written w' = written w ∧ files w' = files w ∧ dirs w' = dirs w.
Proof.
  intros Hs Ht Hne Hk.
  unfold has_required, required_columns, forallb, normalise_and_map.
  ran in_columns_run.
  destruct (has_column src GIVEN) eqn:HG; [|aborted].
  cbn [negb andb]. ran derive_initials_run.
  ran in_columns_run. other_column.
  destruct (has_column src AWARD) eqn:HA; [|aborted].
  cbn [negb andb].
  ran clean_award_id_run by (by other_column).
  ran in_columns_run. ran in_columns_run. ran name_block_run.
  ran in_columns_run. ran in_columns_run. other_column.
  destruct (has_column src END_DATE) eqn:HE; [|aborted].
  destruct (has_column src CREATED) eqn:HC; [|aborted].
  cbn [negb andb].
  ran parse_date_run by (by other_column).
  ran parse_date_run by (by other_column).
  ran in_columns_run. other_column.
  destruct (has_column src AMOUNT) eqn:HM; [|aborted].
  cbn [negb andb].
  ran whole_amount_run by (by other_column).
  ran in_columns_run. other_column.
  destruct (has_column src DEPT) eqn:HD; [|aborted].
  cbn [negb andb].
  ran fill_not_found_run by (by other_column).
  ran in_columns_run. other_column.
  destruct (has_column src ORCID) eqn:HO; [|aborted].
  cbn [negb andb].
  ran fill_not_found_run by (by other_column).
  rewrite !put_put. fold (normalised src).
  destruct (map_rows_run s t folder (put s (normalised src) w)
              (normalised src) tgt)
    as (w' & Hrun & Hh & Hw & Hf & Hd).
  { apply heap_put_eq. }
  { by rewrite heap_put_ne. }
  { exact Hk. }
  { simpl. rewrite has_initials_normalise.
    by rewrite !has_column_normalise. }
  { intros i Hi. rewrite nrows_normalise in Hi.
    by apply funds_status_normalise. }
  rewrite nrows_normalise in Hw, Hf.
  exists w'. split; [by ran Hrun|]. repeat split; auto.
  - apply Hh, heap_put_eq.
  - intros r df Hr H. apply Hh. by rewrite heap_put_ne.
Qed.

End Run.

Section WholeRun.

Variable upper : string → string.
Variable to_datetime : list cell → nat → option date.

Abbreviation normalised := (normalise upper to_datetime).
Abbreviation script := (map_csv_to_csv upper to_datetime).

(** The three ways a run can end, by the columns of the two tables. *)
Lemma map_csv_to_csv_run src tgt folder w :
  let s := fresh (dom (heap w)) in
  let t := fresh (dom (heap (put s src w))) in
  if has_column tgt KEY then
    if has_required src then
      ∃ w', script src tgt folder w = (Ok Completed, w')
        ∧ heap w' !! s = Some (normalised src)
        ∧ heap w' !! t = Some tgt
        ∧ (∀ r df, heap w !! r = Some df → heap w' !! r = Some df)
        ∧ written w' =
          (written w
           ++ writes folder (normalised src) tgt (seq 0 (nrows src)))%list
        ∧ files w' =
          files_after folder (normalised src) tgt (seq 0 (nrows src))
            (files w)
        ∧ dirs w' = {[folder]} ∪ dirs w
    else
      ∃ msg w', script src tgt folder w = (Ok (Aborted msg), w')
        ∧ written w' = written w ∧ files w' = files w
  else
    ∃ msg w', script src tgt folder w = (Raise (ValueError msg), w')
      ∧ written w' = written w ∧ files w' = files w.
Proof.
  intros s t. unfold map_csv_to_csv.
  erewrite bind_run by reflexivity. fold s.
  erewrite bind_run by reflexivity. fold t.
  set (w2 := put t tgt (put s src w)).
  assert (Hst : s ≠ t).
  { intros Heq. apply (fresh_ref_ne (put s src w) s src); [apply heap_put_eq|].
    symmetry. exact Heq. }
  assert (Hs : heap w2 !! s = Some src).
  { unfold w2. rewrite heap_put_ne by congruence. apply heap_put_eq. }
  assert (Ht : heap w2 !! t = Some tgt) by apply heap_put_eq.
  ran in_columns_run.
  destruct (has_column tgt KEY) eqn:Hk; cbn [negb].
  2:{ eexists _, _. split; [reflexivity|]. by split. }
  erewrite bind_run by reflexivity.
  set (w3 := mkworld _ _ _ _).
  pose proof (normalise_and_map_run upper to_datetime s t folder w3 src tgt
                Hs Ht Hst Hk) as Hrun.
  destruct (has_required src).
  - destruct Hrun as (w' & Hrun & Hs' & Hh & Hw & Hf & Hd).
    exists w'. split; [exact Hrun|]. split; [exact Hs'|].
    split; [apply Hh; [congruence | exact Ht]|].
    split; [|split; [exact Hw|split; [exact Hf|exact Hd]]].
    intros r df Hr.
    assert (r ≠ s) by (intros ->; by apply (fresh_ref_ne w s df)).
    assert (r ≠ t).
    { intros ->. apply (fresh_ref_ne (put s src w) t df); [|done].
      by rewrite heap_put_ne. }
    apply Hh; [done|]. unfold w3, w2. simpl.
    by rewrite !lookup_insert_ne.
  - destruct Hrun as (msg & w' & Hrun & Hw & Hf & Hd).
    exists msg, w'. split; [exact Hrun|]. by split.
Qed.

(** A run that reaches the end of the loop had all its columns, and
    left the normalised source, the template and one file per row. *)
Lemma completed_run src tgt folder w w' :
  script src tgt folder w = (Ok Completed, w') →
  has_column tgt KEY = true ∧ has_required src = true
  ∧ heap w' !! fresh (dom (heap w)) = Some (normalised src)
  ∧ heap w' !! fresh (dom (heap (put (fresh (dom (heap w))) src w)))
    = Some tgt
  ∧ (∀ r df, heap w !! r = Some df → heap w' !! r = Some df)
  ∧ written w' =
    (written w ++ writes folder (normalised src) tgt (seq 0 (nrows src)))%list
  ∧ files w' =
    files_after folder (normalised src) tgt (seq 0 (nrows src)) (files w)
  ∧ dirs w' = {[folder]} ∪ dirs w.
Proof.
  intros Hrun. pose proof (map_csv_to_csv_run src tgt folder w) as H.
  cbv zeta in H. destruct (has_column tgt KEY).
  - destruct (has_required src).
    + destruct H as (w'' & Hrun' & H). rewrite Hrun in Hrun'.
      injection Hrun' as <-.
      destruct H as (? & ? & ? & ? & ? & ?). by repeat split.
    + destruct H as (msg & w'' & Hrun' & _). by rewrite Hrun in Hrun'.
  - destruct H as (msg & w'' & Hrun' & _). by rewrite Hrun in Hrun'.
Qed.

Lemma written_lookup src tgt folder w w' i :
  script src tgt folder w = (Ok Completed, w') →
  written w' !! (length (written w) + i) =
  if decide (i < nrows src)
  then Some (path_of folder (normalised src) i,
             record_of (normalised src) tgt i)
  else None.
Proof.
  intros Hrun. apply completed_run in Hrun as (_ & _ & _ & _ & _ & Hw & _).
  rewrite Hw, lookup_app_r by lia.
  replace (length (written w) + i - length (written w)) with i by lia.
  unfold writes. rewrite list_lookup_fmap.
  case_decide.
  - by rewrite lookup_seq_lt.
  - by rewrite lookup_seq_ge by lia.
Qed.

End WholeRun.

(** ** One field of the template *)

Lemma eq_str_Str k k' : eq_str (Str k) k' = bool_decide (k = k').
Proof. unfold eq_str. apply bool_decide_ext. split; congruence. Qed.

Lemma update_value_blank row key old :
  blank old → update_value row key old = source_value row key.
Proof.
  intros [H | ->]; unfold update_value.
  - by rewrite H.
  - reflexivity.
Qed.

Lemma update_value_keep row key old :
  notna old = true → old ≠ Str "" → update_value row key old = old.
Proof.
  intros H Hne. unfold update_value, eq_str.
  by rewrite H, bool_decide_eq_false_2.
Qed.

Lemma update_value_same row k v :
  row !! k = Some v → update_value row (Str k) v = v.
Proof.
  intros H. unfold update_value. rewrite H.
  by destruct (notna v && negb (eq_str v "")).
Qed.

Lemma field_value_status row st old :
  field_value row st (Str STATUS) old = Str st.
Proof. reflexivity. Qed.

Lemma field_value_override row st k v old :
  k ∈ override_keys → k ≠ STATUS → row !! k = Some v →
  field_value row st (Str k) old = v.
Proof.
  intros Hk Hne Hv. unfold override_keys in Hk.
  repeat (apply elem_of_cons in Hk as [-> | Hk]); try done.
  all: try by apply elem_of_nil in Hk.
  all: unfold field_value; rewrite !eq_str_Str, Hv.
  all: repeat (rewrite (bool_decide_eq_false_2 (_ = _)) by discriminate).
  all: rewrite ?(bool_decide_eq_true_2 (_ = _)) by reflexivity.
  all: try reflexivity.
  simpl. by apply update_value_same.
Qed.

Lemma field_value_other row st key old :
  (∀ k, k ∈ override_keys → key ≠ Str k) →
  field_value row st key old = update_value row key old.
Proof.
  intros H. unfold field_value, eq_str.
  rewrite !bool_decide_eq_false_2; [done | ..].
  all: apply H; unfold override_keys; rewrite !elem_of_cons; tauto.
Qed.

Lemma override_row_column k :
  k ∈ override_keys → k ≠ STATUS → k ∈ row_columns.
Proof.
  unfold override_keys, row_columns.
  rewrite !elem_of_cons, !elem_of_nil. tauto.
Qed.

Lemma field_value_default row st key old :
  (∀ k, k ∈ row_columns → is_Some (row !! k)) →
  key ≠ Str STATUS → blank old →
  field_value row st key old = source_value row key.
Proof.
  intros Hrow Hkey Hb.
  assert (Hcases : (∃ k, k ∈ override_keys ∧ key = Str k)
                   ∨ (∀ k, k ∈ override_keys → key ≠ Str k)).
  { destruct key as [| |k|]; try (right; intros; discriminate).
    destruct (decide (k ∈ override_keys)); [left; eauto|].
    right. intros k' Hk' [= ->]. done. }
  destruct Hcases as [(k & Hk & ->) | Hother].
  - assert (k ≠ STATUS) by congruence.
    destruct (Hrow k) as [v Hv]; [by apply override_row_column|].
    rewrite (field_value_override row st k v) by done.
    simpl. by rewrite Hv.
  - rewrite field_value_other by done. by apply update_value_blank.
Qed.

Lemma field_value_keep row st key old :
  (∀ k, k ∈ override_keys → key ≠ Str k) →
  notna old = true → old ≠ Str "" →
  field_value row st key old = old.
Proof.
  intros. rewrite field_value_other by done. by apply update_value_keep.
Qed.

Lemma column_target_record row st tdf j :
  j < nrows tdf →
  column (target_record row st tdf) VALUE j =
  field_value row st (column tdf KEY j) (column tdf VALUE j).
Proof. intros. unfold target_record. by rewrite column_setitem_eq. Qed.

Lemma column_target_record_key row st tdf :
  column (target_record row st tdf) KEY = column tdf KEY.
Proof. unfold target_record. by rewrite column_setitem_ne. Qed.

(** ** The rows of a completed run *)

Section Claims.

Variable upper : string → string.
Variable to_datetime : list cell → nat → option date.

Abbreviation normalised := (normalise upper to_datetime).
Abbreviation script := (map_csv_to_csv upper to_datetime).

Lemma normalised_row_columns src i k :
  has_required src = true → k ∈ row_columns →
  row_of (normalised src) i !! k = Some (column (normalised src) k i).
Proof.
  intros Hreq Hk. apply row_of_column.
  unfold has_required, required_columns in Hreq. simpl in Hreq.
  repeat (apply andb_prop in Hreq as [? Hreq]).
  unfold row_columns in Hk.
  repeat (apply elem_of_cons in Hk as [-> | Hk]).
  all: try by apply elem_of_nil in Hk.
  all: try by apply has_column_normalise.
  apply has_initials_normalise.
Qed.

(** The [i]-th table written by a completed run, read field by field. *)
Lemma written_field src tgt folder w w' i j path out :
  script src tgt folder w = (Ok Completed, w') →
  written w' !! (length (written w) + i) = Some (path, out) →
  j < nrows tgt →
  let row := row_of (normalised src) i in
  heap w' !! fresh (dom (heap w)) = Some (normalised src)
  ∧ i < nrows src
  ∧ path = output_file folder (grant_award_id i row)
  ∧ (∃ st, funds_status row = Ok st
       ∧ column out VALUE j =
         field_value row st (column tgt KEY j) (column tgt VALUE j))
  ∧ (∀ k, k ∈ row_columns → is_Some (row !! k)).
Proof.
  intros Hrun Hw Hj row. subst row.
  rewrite (written_lookup _ _ _ _ _ _ _ _ Hrun) in Hw.
  destruct (completed_run _ _ _ _ _ _ _ Hrun)
    as (Hk & Hreq & Hs & _).
  case_decide as Hi; [|discriminate]. injection Hw as <- <-.
  split; [exact Hs|]. split; [exact Hi|]. split; [reflexivity|].
  split.
  - destruct (funds_status_normalise upper to_datetime src i) as [st Hst];
      auto.
    + unfold has_required in Hreq. simpl in Hreq.
      repeat (apply andb_prop in Hreq as [? Hreq]). done.
    + unfold has_required in Hreq. simpl in Hreq.
      repeat (apply andb_prop in Hreq as [? Hreq]). done.
    + exists st. split; [exact Hst|].
      unfold record_of, status_of. rewrite Hst.
      by apply column_target_record.
  - intros k Hk'. rewrite normalised_row_columns by done. eauto.
Qed.

End Claims.

Lemma date_ltb_lt a b : date_ltb a b = true ↔ date_lt a b.
Proof.
  unfold date_ltb, date_lt.
  rewrite !orb_true_iff, !andb_true_iff, !orb_true_iff, !andb_true_iff.
  rewrite !Nat.ltb_lt, !Nat.eqb_eq. reflexivity.
Qed.

Section ClaimsOfTheMapper.

Variable upper : string → string.
Variable to_datetime : list cell → nat → option date.

Abbreviation normalised := (normalise upper to_datetime).
Abbreviation script := (map_csv_to_csv upper to_datetime).

(** C1, amended.  In a completed run, take the table written for source
    row [i] and a field [j] of the template.  If the field's key is not
    funds/status and the template's value is missing or empty, the
    written value is the row's value under that key, or "NOT FOUND" when
    the row has no such key.  If the key is none of the six override
    keys and the template's value is present and not empty, the written
    value is the template's. *)
Theorem default_fill src tgt folder w w' i j path out :
  script src tgt folder w = (Ok Completed, w') →
  written w' !! (length (written w) + i) = Some (path, out) →
  j < nrows tgt →
  ∃ sdf, heap w' !! fresh (dom (heap w)) = Some sdf
    ∧ (column tgt KEY j ≠ Str STATUS → blank (column tgt VALUE j) →
       column out VALUE j = source_value (row_of sdf i) (column tgt KEY j))
    ∧ ((∀ k, k ∈ override_keys → column tgt KEY j ≠ Str k) →
       notna (column tgt VALUE j) = true → column tgt VALUE j ≠ Str "" →
       column out VALUE j = column tgt VALUE j).
Proof.
  intros Hrun Hw Hj.
  destruct (written_field upper to_datetime _ _ _ _ _ _ _ _ _ Hrun Hw Hj)
    as (Hs & _ & _ & (st & _ & Hv) & Hrow).
  exists (normalised src). split; [exact Hs|]. rewrite Hv. split.
  - intros Hkey Hb. by apply field_value_default.
  - intros Hkey Hn He. by apply field_value_keep.
Qed.

(** C2.  In a completed run, in the table written for source row [i],
    every field whose key is one of the six override keys holds the
    row's attribute for that key: the derived status for funds/status,
    the row's normalised value under the key for the other five.  The
    value the template held plays no part. *)
Theorem overrides_win src tgt folder w w' i j path out k :
  script src tgt folder w = (Ok Completed, w') →
  written w' !! (length (written w) + i) = Some (path, out) →
  j < nrows tgt →
  k ∈ override_keys → column tgt KEY j = Str k →
  ∃ sdf, heap w' !! fresh (dom (heap w)) = Some sdf
    ∧ if decide (k = STATUS)
      then ∃ st, funds_status (row_of sdf i) = Ok st
                 ∧ column out VALUE j = Str st
      else row_of sdf i !! k = Some (column out VALUE j).
Proof.
  intros Hrun Hw Hj Hk Hkey.
  destruct (written_field upper to_datetime _ _ _ _ _ _ _ _ _ Hrun Hw Hj)
    as (Hs & _ & _ & (st & Hst & Hv) & Hrow).
  exists (normalised src). split; [exact Hs|]. rewrite Hv, Hkey.
  case_decide as Hd.
  - subst k. exists st. split; [exact Hst|]. apply field_value_status.
  - destruct (Hrow k) as [v Hv']; [by apply override_row_column|].
    rewrite Hv'. f_equal. symmetry. by apply field_value_override.
Qed.

(** C3.  In a completed run, the row the loop sees at position [i]
    carries in endDate and createdOn what the date parser made of the
    two columns, and its status is "OPEN" exactly when both are dates and
    endDate is strictly after createdOn, "CLOSED" exactly when both are
    dates and endDate is not strictly after createdOn, and "UNKNOWN"
    exactly when one of them is the missing date. *)
Theorem funds_status_by_dates src tgt folder w w' i :
  script src tgt folder w = (Ok Completed, w') →
  i < nrows src →
  let oe := to_datetime (tabulate (nrows src) (column src END_DATE)) i in
  let oc := to_datetime (tabulate (nrows src) (column src CREATED)) i in
  ∃ sdf st,
    heap w' !! fresh (dom (heap w)) = Some sdf
    ∧ row_of sdf i !! END_DATE = Some (date_cell oe)
    ∧ row_of sdf i !! CREATED = Some (date_cell oc)
    ∧ funds_status (row_of sdf i) = Ok st
    ∧ (st = "OPEN" ↔ ∃ e c, oe = Some e ∧ oc = Some c ∧ date_lt c e)
    ∧ (st = "CLOSED" ↔ ∃ e c, oe = Some e ∧ oc = Some c ∧ ¬ date_lt c e)
    ∧ (st = "UNKNOWN" ↔ oe = None ∨ oc = None).
Proof.
  intros Hrun Hi oe oc.
  destruct (completed_run _ _ _ _ _ _ _ Hrun) as (_ & Hreq & Hs & _).
  unfold has_required in Hreq. simpl in Hreq.
  repeat (apply andb_prop in Hreq as [? Hreq]).
  assert (He : row_of (normalised src) i !! END_DATE = Some (date_cell oe)).
  { rewrite row_of_column by (by apply has_column_normalise).
    by rewrite column_normalise_date by auto. }
  assert (Hc : row_of (normalised src) i !! CREATED = Some (date_cell oc)).
  { rewrite row_of_column by (by apply has_column_normalise).
    by rewrite column_normalise_date by auto. }
  eexists _, _. split; [exact Hs|]. split; [exact He|]. split; [exact Hc|].
  split; [by apply funds_status_date_cells|].
  destruct oe as [e|], oc as [c|].
  - destruct (date_ltb c e) eqn:Hlt.
    + apply date_ltb_lt in Hlt. repeat split; try done.
      * eauto 6.
      * intros (? & ? & [= <-] & [= <-] & Hn). done.
      * intros [|]; done.
    + assert (¬ date_lt c e).
      { rewrite <- date_ltb_lt. by rewrite Hlt. }
      repeat split; try done.
      * intros (? & ? & [= <-] & [= <-] & Hn). done.
      * eauto 6.
      * intros [|]; done.
  - repeat split; try done; try (intros (? & ? & ? & ? & ?); done). eauto.
  - repeat split; try done; try (intros (? & ? & ? & ? & ?); done). eauto.
  - repeat split; try done; try (intros (? & ? & ? & ? & ?); done). eauto.
Qed.

End ClaimsOfTheMapper.

(** ** Case-insensitive "nan" *)

Lemma lower_char_n c :
  Py.lower_char c = "n"%char ↔ c = "n"%char ∨ c = "N"%char.
Proof.
  split.
  - destruct c as [[] [] [] [] [] [] [] []]; vm_compute; intros H;
      first [discriminate H | by left | by right].
  - intros [-> | ->]; reflexivity.
Qed.

Lemma lower_char_a c :
  Py.lower_char c = "a"%char ↔ c = "a"%char ∨ c = "A"%char.
Proof.
  split.
  - destruct c as [[] [] [] [] [] [] [] []]; vm_compute; intros H;
      first [discriminate H | by left | by right].
  - intros [-> | ->]; reflexivity.
Qed.

(** [g.lower() == "nan"] holds for the eight spellings of "nan" only. *)
Lemma lower_is_nan g :
  Py.lower g = "nan" ↔
  g ∈ ["nan"; "naN"; "nAn"; "nAN"; "Nan"; "NaN"; "NAn"; "NAN"].
Proof.
  split.
  - destruct g as [|c1 [|c2 [|c3 [|c4 g]]]]; simpl; try discriminate.
    intros [= H1 H2 H3].
    apply lower_char_n in H1 as [-> | ->];
      apply lower_char_a in H2 as [-> | ->];
      apply lower_char_n in H3 as [-> | ->];
      rewrite !elem_of_cons; tauto.
  - rewrite !elem_of_cons, elem_of_nil.
    intros [-> | [-> | [-> | [-> | [-> | [-> | [-> | [-> | []]]]]]]]];
      reflexivity.
Qed.

(** The fallback name has no white space to trim. *)
Lemma strip_no_space s : no_space s = true → Py.strip s = s.
Proof.
  intros H. unfold Py.strip.
  assert (Hl : Py.lstrip s = s).
  { destruct s as [|c s]; [done|]. simpl in *.
    apply andb_prop in H as [H _]. apply negb_true_iff in H. by rewrite H. }
  rewrite Hl. induction s as [|c s IH]; [done|]. simpl in *.
  apply andb_prop in H as [Hc Hs]. apply negb_true_iff in Hc.
  rewrite IH.
  - destruct s; [by rewrite Hc | done].
  - exact Hs.
  - destruct s as [|c' s]; [done|]. simpl in *.
    apply andb_prop in Hs as [H _]. apply negb_true_iff in H. by rewrite H.
Qed.

Lemma no_space_digits d : no_space (NilEmpty.string_of_uint d) = true.
Proof. induction d; simpl; auto. Qed.

Lemma strip_fallback n :
  Py.strip ("row_" +:+ Py.str_of_nat n) = "row_" +:+ Py.str_of_nat n.
Proof. apply strip_no_space. simpl. apply no_space_digits. Qed.

Lemma forallb_false {A} (f : A → bool) l x :
  x ∈ l → f x = false → forallb f l = false.
Proof.
  intros Hx Hf. induction l as [|y l IH]; simpl.
  - by apply elem_of_nil in Hx.
  - apply elem_of_cons in Hx as [<- | Hx].
    + by rewrite Hf.
    + rewrite IH by done. apply andb_false_r.
Qed.

Section MoreClaims.

Variable upper : string → string.
Variable to_datetime : list cell → nat → option date.

Abbreviation normalised := (normalise upper to_datetime).
Abbreviation script := (map_csv_to_csv upper to_datetime).

Lemma column_normalise_initials src i :
  i < nrows src →
  column (normalised src) INITIALS i =
  Series.where_
    (Series.add_lit
       (Series.str_upper upper
          (Series.str_get0 (Series.astype_str (column src GIVEN))))
       ".")
    (Series.notna (column src GIVEN)) (Str "") i.
Proof.
  intros Hi. unfold normalise. other_column.
  unfold initials_step. by rewrite column_setitem_eq.
Qed.

Lemma column_normalise_award src i :
  i < nrows src →
  column (normalised src) AWARD i =
  Series.fillna (Series.str_strip (Series.astype_str (column src AWARD)))
    NOT_FOUND i.
Proof.
  intros Hi. unfold normalise. other_column.
  unfold award_step. rewrite column_setitem_eq by exact Hi.
  unfold Series.fillna, Series.notna, Series.str_strip, Series.astype_str.
  by other_column.
Qed.

Lemma column_normalise_amount src i :
  i < nrows src →
  column (normalised src) AMOUNT i =
  Series.fillna
    (Series.str_split_dot_get0 (Series.astype_str (column src AMOUNT)))
    NOT_FOUND i.
Proof.
  intros Hi. unfold normalise. other_column.
  unfold amount_step.
  rewrite column_setitem_eq by (simpl; rewrite nrows_name_step; exact Hi).
  unfold Series.fillna, Series.notna, Series.str_split_dot_get0,
    Series.astype_str.
  by other_column.
Qed.

Lemma row_normalise_grant src i :
  row_of (normalised src) i !! GRANT = row_of src i !! GRANT.
Proof.
  rewrite !row_of_lookup. f_equal.
  unfold normalise, fill_step, amount_step, date_step, setitem. simpl.
  rewrite !lookup_insert_ne by discriminate.
  unfold name_step. destruct (_ && _); simpl.
  - unfold setitem. simpl. by rewrite !lookup_insert_ne by discriminate.
  - by rewrite !lookup_insert_ne by discriminate.
Qed.

(** C6.  In a completed run, the row the loop sees at position [i]
    carries as initials the empty text when the source's givenName is
    missing there, and the first character of givenName, upper-cased
    and followed by a period, when givenName is a text with a first
    character. *)
Theorem initials_of_given_name src tgt folder w w' i :
  script src tgt folder w = (Ok Completed, w') →
  i < nrows src →
  ∃ sdf, heap w' !! fresh (dom (heap w)) = Some sdf
    ∧ (notna (column src GIVEN i) = false →
       row_of sdf i !! INITIALS = Some (Str ""))
    ∧ (∀ c rest, column src GIVEN i = Str (String c rest) →
       row_of sdf i !! INITIALS =
       Some (Str (upper (String c EmptyString) +:+ "."))).
Proof.
  intros Hrun Hi.
  destruct (completed_run _ _ _ _ _ _ _ Hrun) as (_ & Hreq & Hs & _).
  exists (normalised src). split; [exact Hs|].
  rewrite row_of_column by apply has_initials_normalise.
  rewrite column_normalise_initials by exact Hi.
  unfold Series.where_, Series.notna, Series.add_lit, Series.str_upper,
    Series.str_get0, Series.astype_str.
  split.
  - by intros ->.
  - by intros c rest ->.
Qed.

(** C7.  In a completed run, the [i]-th table is written under the
    name built from an identifier.  The identifier is [row_<i+1>] when
    the source has no grantAwardId column, when the cell is missing,
    when its trimmed text is empty, and when its trimmed text is "nan"
    in any mix of cases; otherwise it is the trimmed text of the cell. *)
Theorem output_identifier src tgt folder w w' i path out :
  script src tgt folder w = (Ok Completed, w') →
  written w' !! (length (written w) + i) = Some (path, out) →
  ∃ id, path = output_file folder id
    ∧ let fallback := "row_" +:+ Py.str_of_nat (i + 1) in
      let g := Py.strip (py_str (column src GRANT i)) in
      (has_column src GRANT = false → id = fallback)
      ∧ (has_column src GRANT = true →
         (column src GRANT i = NaN → id = fallback)
         ∧ (g = "" → id = fallback)
         ∧ (Py.lower g = "nan" → id = fallback)
         ∧ (g ≠ "" → Py.lower g ≠ "nan" → id = g)).
Proof.
  intros Hrun Hw.
  rewrite (written_lookup _ _ _ _ _ _ _ _ Hrun) in Hw.
  case_decide as Hi; [|discriminate]. injection Hw as <- _.
  eexists. split; [reflexivity|].
  unfold grant_award_id. rewrite row_normalise_grant.
  cbv zeta. split.
  - intros Hno. rewrite row_of_missing by exact Hno. simpl default.
    simpl py_str. rewrite strip_fallback. by destruct (_ || _).
  - intros Hyes. rewrite row_of_column by exact Hyes. simpl default.
    split; [|split; [|split]].
    + by intros ->.
    + intros ->. reflexivity.
    + intros ->. rewrite (bool_decide_eq_true_2 ("nan" = "nan")) by done.
      by rewrite orb_true_r.
    + intros H1 H2. by rewrite !bool_decide_eq_false_2.
Qed.

(** C8.  When the template has no key column, or the source lacks one
    of the seven required columns, the run ends with an error - the
    ValueError of line 19 for the template, an [[ERROR]] message and an
    early return for the source - and no table has been written. *)
Theorem missing_column_aborts src tgt folder w :
  has_column tgt KEY = false
  ∨ (∃ c, c ∈ required_columns ∧ has_column src c = false) →
  ∃ res w', script src tgt folder w = (res, w')
    ∧ ((∃ msg, res = Raise (ValueError msg))
       ∨ (∃ msg, res = Ok (Aborted msg)))
    ∧ written w' = written w ∧ files w' = files w.
Proof.
  intros H. pose proof (map_csv_to_csv_run upper to_datetime src tgt folder w)
    as Hrun.
  cbv zeta in Hrun. destruct (has_column tgt KEY) eqn:Hk.
  - destruct H as [H | (c & Hc & Hno)]; [discriminate|].
    unfold has_required in Hrun.
    rewrite (forallb_false _ _ c Hc Hno) in Hrun.
    destruct Hrun as (msg & w' & Hrun & Hw & Hf).
    exists (Ok (Aborted msg)), w'. split; [exact Hrun|]. eauto.
  - destruct Hrun as (msg & w' & Hrun & Hw & Hf).
    exists (Raise (ValueError msg)), w'. split; [exact Hrun|]. eauto.
Qed.

End MoreClaims.

(** ** What a turn of the loop may touch *)

Lemma touches_ret {A} r (a : A) : touches r (ret a).
Proof. by intros w res w' [= _ <-]. Qed.

Lemma touches_lift {A} r (x : result A) : touches r (lift x).
Proof. by intros w res w' [= _ <-]. Qed.

Lemma touches_load r r0 : touches r (load r0).
Proof.
  intros w res w'. unfold load. by destruct (heap w !! r0); intros [= _ <-].
Qed.

Lemma touches_bind {A B} r (m : M A) (k : A → M B) :
  touches r m → (∀ a, touches r (k a)) → touches r (bind m k).
Proof.
  intros Hm Hk w res w'. unfold bind.
  destruct (m w) as [[a|e] w1] eqn:Hmw.
  - intros Hkw r' Hr'. rewrite (Hk a _ _ _ Hkw r' Hr').
    by apply (Hm _ _ _ Hmw).
  - intros [= _ <-]. by apply (Hm _ _ _ Hmw).
Qed.

Lemma touches_modify r f : touches r (modify r f).
Proof.
  unfold modify. apply touches_bind; [apply touches_load|].
  intros df. destruct (f df) as [df'|e].
  - intros w res w' [= _ <-] r' Hr'. by apply heap_put_ne.
  - by intros w res w' [= _ <-].
Qed.

Lemma touches_to_csv r r0 path : touches r (to_csv r0 path).
Proof.
  unfold to_csv. apply touches_bind; [apply touches_load|].
  by intros df w res w' [= _ <-].
Qed.

#[export] Hint Resolve touches_ret touches_lift touches_load touches_modify
  touches_to_csv : frame.

(** A turn of the loop leaves every object that existed before it as it
    was, however the turn ends. *)
Lemma map_row_keeps s t folder i w res w' :
  map_row s t folder i w = (res, w') →
  ∀ r df, heap w !! r = Some df → heap w' !! r = Some df.
Proof.
  unfold map_row. intros Hrun r df Hr.
  unfold bind at 1 in Hrun. unfold load at 1 in Hrun.
  destruct (heap w !! s) as [sdf|]; [|by injection Hrun as _ <-].
  unfold bind at 1 in Hrun. unfold df_copy, bind at 1, load at 1 in Hrun.
  destruct (heap w !! t) as [tdf|] eqn:Ht; [|by injection Hrun as _ <-].
  unfold alloc in Hrun. set (r' := fresh (dom (heap w))) in Hrun.
  assert (Hne : r ≠ r').
  { intros Heq. apply (fresh_ref_ne w r df Hr). symmetry. exact Heq. }
  match type of Hrun with ?m _ = _ =>
    assert (Ht' : touches r' m)
  end.
  { repeat first
      [ apply touches_modify | apply touches_to_csv | apply touches_lift
      | apply touches_bind; [|intros ?] ]. }
  rewrite (Ht' _ _ _ Hrun r Hne). by rewrite heap_put_ne.
Qed.

Lemma for_each_map_row_keeps s t folder idx :
  ∀ w res w', for_each idx (map_row s t folder) w = (res, w') →
  ∀ r df, heap w !! r = Some df → heap w' !! r = Some df.
Proof.
  induction idx as [|i idx IH]; intros w res w'; simpl.
  - by intros [= _ <-].
  - unfold bind. destruct (map_row s t folder i w) as [[[]|e] w1] eqn:Hrow.
    + intros Hrest r df Hr. eapply IH; [exact Hrest|].
      by eapply map_row_keeps.
    + intros [= _ <-] r df Hr. by eapply map_row_keeps.
Qed.

(** ** What is left on disk *)

Lemma files_after_snoc folder sdf tdf idx i fs :
  files_after folder sdf tdf (idx ++ [i]) fs =
  <[path_of folder sdf i := record_of sdf tdf i]>
    (files_after folder sdf tdf idx fs).
Proof. unfold files_after. by rewrite foldl_app. Qed.

(** Under a name that some row [j] was saved to, the disk holds the table
    of the last row saved to that name. *)
Lemma files_after_last folder sdf tdf n fs p j :
  j < n → path_of folder sdf j = p →
  ∃ k, j ≤ k ∧ k < n ∧ path_of folder sdf k = p
    ∧ files_after folder sdf tdf (seq 0 n) fs !! p
      = Some (record_of sdf tdf k).
Proof.
  induction n as [|n IH]; intros Hj Hp; [lia|].
  rewrite seq_S, files_after_snoc. simpl.
  destruct (decide (path_of folder sdf n = p)) as [Hn | Hn].
  - exists n. rewrite Hn, lookup_insert_eq. repeat split; auto; lia.
  - assert (j < n).
    { destruct (decide (j = n)) as [-> | ?]; [done | lia]. }
    destruct IH as (k & ? & ? & ? & Hk); auto.
    exists k. rewrite lookup_insert_ne by done. repeat split; auto.
Qed.

Section Disk.

Variable upper : string → string.
Variable to_datetime : list cell → nat → option date.

Abbreviation normalised := (normalise upper to_datetime).
Abbreviation script := (map_csv_to_csv upper to_datetime).

Lemma path_of_grant src folder i :
  has_column src GRANT = true →
  let g := Py.strip (py_str (column src GRANT i)) in
  g ≠ "" → Py.lower g ≠ "nan" →
  path_of folder (normalised src) i = output_file folder g.
Proof.
  intros Hg g H1 H2. unfold path_of, grant_award_id.
  rewrite row_normalise_grant, row_of_column by exact Hg. simpl default.
  fold g. by rewrite !bool_decide_eq_false_2.
Qed.

(** C9.  In a completed run the template object holds at the end what
    it held at the start; any number of turns of the loop, however they
    end, leave it so; and the table written for a row is computed from
    that row and the template alone, so that two rows that are equal
    give equal tables. *)
Theorem template_never_mutated src tgt folder w w' :
  script src tgt folder w = (Ok Completed, w') →
  let s := fresh (dom (heap w)) in
  let t := fresh (dom (heap (put s src w))) in
  heap w' !! t = Some tgt
  ∧ (∀ idx w1 res w2,
       heap w1 !! t = Some tgt →
       for_each idx (map_row s t folder) w1 = (res, w2) →
       heap w2 !! t = Some tgt)
  ∧ ∃ sdf, heap w' !! s = Some sdf
      ∧ (∀ i p o,
           written w' !! (length (written w) + i) = Some (p, o) →
           o = target_record (row_of sdf i) (status_of (row_of sdf i)) tgt)
      ∧ (∀ i j pi oi pj oj,
           written w' !! (length (written w) + i) = Some (pi, oi) →
           written w' !! (length (written w) + j) = Some (pj, oj) →
           row_of sdf i = row_of sdf j → oi = oj).
Proof.
  intros Hrun s t.
  destruct (completed_run _ _ _ _ _ _ _ Hrun) as (_ & _ & Hs & Ht & _).
  split; [exact Ht|]. split.
  { intros idx w1 res w2 H1 Hloop.
    by apply (for_each_map_row_keeps _ _ _ _ _ _ _ Hloop). }
  exists (normalised src). split; [exact Hs|].
  assert (Hrec : ∀ i p o,
    written w' !! (length (written w) + i) = Some (p, o) →
    o = record_of (normalised src) tgt i).
  { intros i p o Hw.
    rewrite (written_lookup _ _ _ _ _ _ _ _ Hrun) in Hw.
    case_decide; [|discriminate]. by injection Hw as _ <-. }
  split; [exact Hrec|].
  intros i j pi oi pj oj Hi Hj Heq.
  rewrite (Hrec _ _ _ Hi), (Hrec _ _ _ Hj). unfold record_of.
  by rewrite Heq.
Qed.

(** C10.  In a completed run, two rows whose grantAwardId cells trim to
    the same text, not empty and not "nan", are saved under the same
    file name, and what that name holds at the end is the table of a row
    at or after the later of the two: the earlier row's file has been
    replaced. *)
Theorem same_identifier_overwrites src tgt folder w w' i j :
  script src tgt folder w = (Ok Completed, w') →
  i < j → j < nrows src →
  has_column src GRANT = true →
  let gi := Py.strip (py_str (column src GRANT i)) in
  let gj := Py.strip (py_str (column src GRANT j)) in
  gi = gj → gi ≠ "" → Py.lower gi ≠ "nan" →
  ∃ oi oj k ok,
    written w' !! (length (written w) + i) = Some (output_file folder gi, oi)
    ∧ written w' !! (length (written w) + j)
      = Some (output_file folder gi, oj)
    ∧ j ≤ k
    ∧ written w' !! (length (written w) + k)
      = Some (output_file folder gi, ok)
    ∧ (files w' : gmap string DataFrame) !! output_file folder gi = Some ok.
Proof.
  intros Hrun Hij Hj Hg gi gj Heq Hne Hnan.
  assert (Hpi : path_of folder (normalised src) i = output_file folder gi).
  { by apply path_of_grant. }
  assert (Hpj : path_of folder (normalised src) j = output_file folder gi).
  { assert (gj ≠ "") by (by rewrite <- Heq).
    assert (Py.lower gj ≠ "nan") by (by rewrite <- Heq).
    rewrite Heq. by apply path_of_grant. }
  destruct (completed_run _ _ _ _ _ _ _ Hrun)
    as (_ & _ & _ & _ & _ & _ & Hf & _).
  destruct (files_after_last folder (normalised src) tgt (nrows src)
              (files w) _ j Hj Hpj) as (k & Hjk & Hk & Hpk & Hlast).
  exists (record_of (normalised src) tgt i),
    (record_of (normalised src) tgt j), k,
    (record_of (normalised src) tgt k).
  rewrite !(written_lookup _ _ _ _ _ _ _ _ Hrun).
  rewrite !decide_True by lia. rewrite Hpi, Hpj, Hpk, Hf.
  by repeat split.
Qed.

End Disk.

(** ** The award id and the amount, as the loop sees them *)

Lemma split_not_nil sep s : Py.split sep s ≠ [].
Proof.
  induction s as [|c s IH]; simpl; [done|].
  destruct (Ascii.eqb c sep); [done|]. by destruct (Py.split sep s).
Qed.

Section NormalisedText.

Variable upper : string → string.
Variable to_datetime : list cell → nat → option date.

Abbreviation normalised := (normalise upper to_datetime).
Abbreviation script := (map_csv_to_csv upper to_datetime).

(** The award id of a row is the trimmed text of the source cell - the
    text "nan" for a missing cell: [fillna] finds nothing to fill. *)
Lemma award_id_is_trimmed_text src tgt folder w w' i :
  script src tgt folder w = (Ok Completed, w') →
  i < nrows src →
  ∃ sdf, heap w' !! fresh (dom (heap w)) = Some sdf
    ∧ row_of sdf i !! AWARD
      = Some (Str (Py.strip (py_str (column src AWARD i)))).
Proof.
  intros Hrun Hi.
  destruct (completed_run _ _ _ _ _ _ _ Hrun) as (_ & Hreq & Hs & _).
  exists (normalised src). split; [exact Hs|].
  rewrite normalised_row_columns, column_normalise_award; auto.
  unfold row_columns. rewrite !elem_of_cons. tauto.
Qed.

(** The amount of a row is the text of the source cell up to its first
    point - the text "nan" for a missing cell. *)
Lemma amount_is_text_before_point src tgt folder w w' i :
  script src tgt folder w = (Ok Completed, w') →
  i < nrows src →
  ∃ sdf, heap w' !! fresh (dom (heap w)) = Some sdf
    ∧ row_of sdf i !! AMOUNT
      = Some (Str (hd "" (Py.split "." (py_str (column src AMOUNT i))))).
Proof.
  intros Hrun Hi.
  destruct (completed_run _ _ _ _ _ _ _ Hrun) as (_ & Hreq & Hs & _).
  exists (normalised src). split; [exact Hs|].
  rewrite normalised_row_columns, column_normalise_amount; auto.
  - unfold Series.fillna, Series.notna, Series.str_split_dot_get0,
      Series.astype_str.
    pose proof (split_not_nil "." (py_str (column src AMOUNT i))).
    by destruct (Py.split _ _).
  - unfold row_columns. rewrite !elem_of_cons. tauto.
Qed.

End NormalisedText.

(** ** The small run *)

Example py_examples :
  Py.strip "  11/0004192 " = "11/0004192"
  ∧ Py.lower "NaN" = "nan"
  ∧ Py.split "." "1234.99" = ["1234"; "99"]
  ∧ Py.split "." "1234" = ["1234"]
  ∧ Py.str_of_nat 12 = "12"
  ∧ py_str (DateV (mkdate 2021 5 1)) = "2021-05-01"
  ∧ Py.path_join "./output_files/" "a.csv" = "./output_files/a.csv"
  ∧ Py.path_join "out" "a.csv" = "out/a.csv".
Proof. vm_compute. by repeat split. Qed.

(** The small run reaches the end of the loop. *)
Lemma demo_completes :
  map_csv_to_csv ascii_upper iso_dates demo_source demo_template "out"
    empty_world = (Ok Completed, demo_world).
Proof.
  unfold demo_world, run.
  destruct (map_csv_to_csv _ _ _ _ _ _) as [r w] eqn:E. simpl.
  f_equal. change r with (r, w).1. rewrite <- E. vm_compute. reflexivity.
Qed.

Lemma demo_written_lookup i :
  i < 3 →
  written demo_world !! (length (written empty_world) + i)
  = Some ((demo_written i).1, (demo_written i).2).
Proof.
  intros Hi. simpl. unfold demo_written.
  destruct (written demo_world !! i) as [[p o]|] eqn:E; [done|].
  apply lookup_ge_None in E.
  assert (length (written demo_world) = 3) by (vm_compute; reflexivity). lia.
Qed.

Lemma demo_source_object :
  heap demo_world !! 0 = Some (normalise ascii_upper iso_dates demo_source).
Proof.
  by destruct (completed_run _ _ _ _ _ _ _ demo_completes)
    as (_ & _ & H & _).
Qed.

Example demo_run :
  fst <$> written demo_world
  = ["out/mapped_output_G1.csv"; "out/mapped_output_row_2.csv";
     "out/mapped_output_G1.csv"]
  ∧ (λ o, tabulate 6 (column o.2 VALUE)) <$> written demo_world
    = [[Str "11/0004192"; Str "OPEN"; Str "J."; Str "keep"; Str "Jane Doe";
        Str "NOT FOUND"];
       [Str "nan"; Str "CLOSED"; Str ""; Str "keep"; Str "Roe";
        Str "NOT FOUND"];
       [Str "X"; Str "UNKNOWN"; Str "B."; Str "keep"; Str "bob";
        Str "NOT FOUND"]].
Proof. split; vm_compute; reflexivity. Qed.

(** The three statuses of the specification's examples. *)
Example funds_status_examples :
  let row e c : gmap string cell :=
    {[ END_DATE := date_cell (iso_date e);
       CREATED := date_cell (iso_date c) ]} in
  funds_status (row (Str "2021-05-01") (Str "2021-01-01")) = Ok "OPEN"
  ∧ funds_status (row (Str "2021-01-01") (Str "2021-01-01")) = Ok "CLOSED"
  ∧ funds_status (row NaN (Str "2021-01-01")) = Ok "UNKNOWN".
Proof.
  cbv zeta. split; [vm_compute; reflexivity|].
  split; vm_compute; reflexivity.
Qed.

(** C1 as stated fails: in the small run the template's funds/status
    field is blank and the source row has no funds/status key, yet the
    field is written as "OPEN", not as the default "NOT FOUND". *)
Lemma blank_status_field_is_not_default_filled :
  ∃ sdf, heap demo_world !! 0 = Some sdf
    ∧ column demo_template KEY 1 = Str STATUS
    ∧ blank (column demo_template VALUE 1)
    ∧ row_of sdf 0 !! STATUS = None
    ∧ source_value (row_of sdf 0) (column demo_template KEY 1) = NOT_FOUND
    ∧ column (demo_written 0).2 VALUE 1 = Str "OPEN"
    ∧ column (demo_written 0).2 VALUE 1
      ≠ source_value (row_of sdf 0) (column demo_template KEY 1).
Proof.
  exists (normalise ascii_upper iso_dates demo_source).
  split; [exact demo_source_object|].
  split; [vm_compute; reflexivity|].
  split; [left; vm_compute; reflexivity|].
  split; [vm_compute; reflexivity|].
  split; [vm_compute; reflexivity|].
  split; [vm_compute; reflexivity|].
  vm_compute. discriminate.
Qed.

(** C5 at a row with no fundingBodyAwardId: the loop sees the text
    "nan", and so does the written table, where "NOT FOUND" was meant. *)
Lemma missing_award_id_reads_nan :
  ∃ sdf, heap demo_world !! 0 = Some sdf
    ∧ column demo_source AWARD 1 = NaN
    ∧ row_of sdf 1 !! AWARD = Some (Str "nan")
    ∧ column (demo_written 1).2 KEY 0 = Str AWARD
    ∧ column (demo_written 1).2 VALUE 0 = Str "nan".
Proof.
  exists (normalise ascii_upper iso_dates demo_source).
  split; [exact demo_source_object|].
  split; [vm_compute; reflexivity|].
  split; [vm_compute; reflexivity|].
  split; vm_compute; reflexivity.
Qed.

(** C4 at a row with no funding amount: the loop sees the text "nan"
    where "NOT FOUND" was meant; the amounts that are there are cut at
    the point. *)
Lemma missing_amount_reads_nan :
  ∃ sdf, heap demo_world !! 0 = Some sdf
    ∧ column demo_source AMOUNT 2 = NaN
    ∧ row_of sdf 2 !! AMOUNT = Some (Str "nan")
    ∧ row_of sdf 0 !! AMOUNT = Some (Str "1234")
    ∧ row_of sdf 1 !! AMOUNT = Some (Str "1234").
Proof.
  exists (normalise ascii_upper iso_dates demo_source).
  split; [exact demo_source_object|].
  split; [vm_compute; reflexivity|].
  split; [vm_compute; reflexivity|].
  split; vm_compute; reflexivity.
Qed.

(** ** The theorems at the small run *)

Lemma default_fill_witness :
  ∃ sdf, heap demo_world !! fresh (dom (heap empty_world)) = Some sdf
    ∧ (column demo_template KEY 5 ≠ Str STATUS →
       blank (column demo_template VALUE 5) →
       column (demo_written 0).2 VALUE 5
       = source_value (row_of sdf 0) (column demo_template KEY 5))
    ∧ ((∀ k, k ∈ override_keys → column demo_template KEY 5 ≠ Str k) →
       notna (column demo_template VALUE 5) = true →
       column demo_template VALUE 5 ≠ Str "" →
       column (demo_written 0).2 VALUE 5 = column demo_template VALUE 5).
Proof.
  apply (default_fill ascii_upper iso_dates demo_source demo_template "out"
           empty_world demo_world 0 5 (demo_written 0).1 (demo_written 0).2).
  - exact demo_completes.
  - apply demo_written_lookup. lia.
  - vm_compute. lia.
Defined.

Lemma overrides_win_witness :
  ∃ sdf, heap demo_world !! fresh (dom (heap empty_world)) = Some sdf
    ∧ if decide (AWARD = STATUS)
      then ∃ st, funds_status (row_of sdf 0) = Ok st
                 ∧ column (demo_written 0).2 VALUE 0 = Str st
      else row_of sdf 0 !! AWARD = Some (column (demo_written 0).2 VALUE 0).
Proof.
  apply (overrides_win ascii_upper iso_dates demo_source demo_template "out"
           empty_world demo_world 0 0 (demo_written 0).1 (demo_written 0).2
           AWARD).
  - exact demo_completes.
  - apply demo_written_lookup. lia.
  - vm_compute. lia.
  - unfold override_keys. by left.
  - vm_compute. reflexivity.
Defined.

Lemma funds_status_by_dates_witness :
  let oe :=
    iso_dates (tabulate (nrows demo_source) (column demo_source END_DATE)) 0 in
  let oc :=
    iso_dates (tabulate (nrows demo_source) (column demo_source CREATED)) 0 in
  ∃ sdf st,
    heap demo_world !! fresh (dom (heap empty_world)) = Some sdf
    ∧ row_of sdf 0 !! END_DATE = Some (date_cell oe)
    ∧ row_of sdf 0 !! CREATED = Some (date_cell oc)
    ∧ funds_status (row_of sdf 0) = Ok st
    ∧ (st = "OPEN" ↔ ∃ e c, oe = Some e ∧ oc = Some c ∧ date_lt c e)
    ∧ (st = "CLOSED" ↔ ∃ e c, oe = Some e ∧ oc = Some c ∧ ¬ date_lt c e)
    ∧ (st = "UNKNOWN" ↔ oe = None ∨ oc = None).
Proof.
  apply (funds_status_by_dates ascii_upper iso_dates demo_source
           demo_template "out" empty_world demo_world 0).
  - exact demo_completes.
  - vm_compute. lia.
Defined.

Lemma initials_of_given_name_witness :
  ∃ sdf, heap demo_world !! fresh (dom (heap empty_world)) = Some sdf
    ∧ (notna (column demo_source GIVEN 0) = false →
       row_of sdf 0 !! INITIALS = Some (Str ""))
    ∧ (∀ c rest, column demo_source GIVEN 0 = Str (String c rest) →
       row_of sdf 0 !! INITIALS
       = Some (Str (ascii_upper (String c EmptyString) +:+ "."))).
Proof.
  apply (initials_of_given_name ascii_upper iso_dates demo_source
           demo_template "out" empty_world demo_world 0).
  - exact demo_completes.
  - vm_compute. lia.
Defined.

Lemma output_identifier_witness :
  ∃ id, (demo_written 1).1 = output_file "out" id
    ∧ let fallback := "row_" +:+ Py.str_of_nat (1 + 1) in
      let g := Py.strip (py_str (column demo_source GRANT 1)) in
      (has_column demo_source GRANT = false → id = fallback)
      ∧ (has_column demo_source GRANT = true →
         (column demo_source GRANT 1 = NaN → id = fallback)
         ∧ (g = "" → id = fallback)
         ∧ (Py.lower g = "nan" → id = fallback)
         ∧ (g ≠ "" → Py.lower g ≠ "nan" → id = g)).
Proof.
  apply (output_identifier ascii_upper iso_dates demo_source demo_template
           "out" empty_world demo_world 1 (demo_written 1).1
           (demo_written 1).2).
  - exact demo_completes.
  - apply demo_written_lookup. lia.
Defined.

Lemma missing_column_aborts_witness :
  ∃ res w',
    map_csv_to_csv ascii_upper iso_dates demo_no_award demo_template "out"
      empty_world = (res, w')
    ∧ ((∃ msg, res = Raise (ValueError msg))
       ∨ (∃ msg, res = Ok (Aborted msg)))
    ∧ written w' = written empty_world ∧ files w' = files empty_world.
Proof.
  apply (missing_column_aborts ascii_upper iso_dates demo_no_award
           demo_template "out" empty_world).
  right. exists AWARD. split.
  - unfold required_columns. right. by left.
  - vm_compute. reflexivity.
Defined.

Lemma template_never_mutated_witness :
  let s := fresh (dom (heap empty_world)) in
  let t := fresh (dom (heap (put s demo_source empty_world))) in
  heap demo_world !! t = Some demo_template
  ∧ (∀ idx w1 res w2,
       heap w1 !! t = Some demo_template →
       for_each idx (map_row s t "out") w1 = (res, w2) →
       heap w2 !! t = Some demo_template)
  ∧ ∃ sdf, heap demo_world !! s = Some sdf
      ∧ (∀ i p o,
           written demo_world !! (length (written empty_world) + i)
           = Some (p, o) →
           o = target_record (row_of sdf i) (status_of (row_of sdf i))
                 demo_template)
      ∧ (∀ i j pi oi pj oj,
           written demo_world !! (length (written empty_world) + i)
           = Some (pi, oi) →
           written demo_world !! (length (written empty_world) + j)
           = Some (pj, oj) →
           row_of sdf i = row_of sdf j → oi = oj).
Proof.
  apply (template_never_mutated ascii_upper iso_dates demo_source
           demo_template "out" empty_world demo_world).
  exact demo_completes.
Defined.

Lemma same_identifier_overwrites_witness :
  let gi := Py.strip (py_str (column demo_source GRANT 0)) in
  ∃ oi oj k ok,
    written demo_world !! (length (written empty_world) + 0)
    = Some (output_file "out" gi, oi)
    ∧ written demo_world !! (length (written empty_world) + 2)
      = Some (output_file "out" gi, oj)
    ∧ 2 ≤ k
    ∧ written demo_world !! (length (written empty_world) + k)
      = Some (output_file "out" gi, ok)
    ∧ (files demo_world : gmap string DataFrame) !! output_file "out" gi
      = Some ok.
Proof.
  apply (same_identifier_overwrites ascii_upper iso_dates demo_source
           demo_template "out" empty_world demo_world 0 2).
  - exact demo_completes.
  - lia.
  - vm_compute. lia.
  - vm_compute. reflexivity.
  - vm_compute. reflexivity.
  - vm_compute. discriminate.
  - vm_compute. discriminate.
Defined.

(** ** How a run ends *)

Section Outcome.

Variable upper : string → string.
Variable to_datetime : list cell → nat → option date.

Abbreviation normalised := (normalise upper to_datetime).
Abbreviation script := (map_csv_to_csv upper to_datetime).





End Outcome.

(** ** What a completed run writes *)

Lemma update_value_idem row key v :
  update_value row key (update_value row key v) = update_value row key v.
Proof.
  unfold update_value.
  destruct (notna v && negb (eq_str v "")) eqn:E.
  - by rewrite E.
  - match goal with |- (if ?b then _ else _) = _ => by destruct b end.
Qed.

Lemma field_value_idem row st key old :
  field_value row st key (field_value row st key old)
  = field_value row st key old.
Proof.
  unfold field_value.
  destruct (eq_str key ORCID); [reflexivity|].
  destruct (eq_str key DEPT); [reflexivity|].
  destruct (eq_str key AMOUNT); [reflexivity|].
  destruct (eq_str key INITIALS); [reflexivity|].
  destruct (eq_str key STATUS); [reflexivity|].
  destruct (eq_str key AWARD); [reflexivity|].
  apply update_value_idem.
Qed.

Lemma target_record_idem row st tdf :
  target_record row st (target_record row st tdf) = target_record row st tdf.
Proof.
  unfold target_record at 1 3. unfold target_record at 3.
  rewrite setitem_setitem. apply setitem_ext. intros j Hj.
  unfold target_record. rewrite column_setitem_ne by apply KEY_VALUE.
  rewrite column_setitem_eq by exact Hj. apply field_value_idem.
Qed.

Lemma files_after_other folder sdf tdf idx fs p :
  (∀ i, i ∈ idx → path_of folder sdf i ≠ p) →
  files_after folder sdf tdf idx fs !! p = fs !! p.
Proof.
  revert fs. induction idx as [|i idx IH]; intros fs H; [done|].
  change (files_after folder sdf tdf (i :: idx) fs)
    with (files_after folder sdf tdf idx
            (<[path_of folder sdf i := record_of sdf tdf i]> fs)).
  rewrite IH by (intros j Hj; apply H; by right).
  apply lookup_insert_ne. apply H. by left.
Qed.

Section Written.

Variable upper : string → string.
Variable to_datetime : list cell → nat → option date.

Abbreviation normalised := (normalise upper to_datetime).
Abbreviation script := (map_csv_to_csv upper to_datetime).


(** X4.  A written table has the rows of the template and, but for the
    value column, its columns: the loop writes the value column and no
    other; and it has a value column even when the template had none. *)
Theorem only_value_column_changes src tgt folder w w' i path out :
  script src tgt folder w = (Ok Completed, w') →
  written w' !! (length (written w) + i) = Some (path, out) →
  nrows out = nrows tgt
  ∧ has_column out VALUE = true
  ∧ (∀ c, c ≠ VALUE → columns out !! c = columns tgt !! c).
Proof.
  intros Hrun Hw.
  rewrite (written_lookup _ _ _ _ _ _ _ _ Hrun) in Hw.
  case_decide; [|discriminate]. injection Hw as _ <-.
  unfold record_of, target_record. split; [reflexivity|]. split.
  - apply has_column_setitem_same.
  - intros c Hc. unfold setitem. simpl. by rewrite lookup_insert_ne.
Qed.

(** X5.  Mapping is idempotent on its own output: a run that takes as
    template the table an earlier run wrote for row [i] writes, for the
    same source and row, that very table under that very name. *)
Theorem written_table_is_a_fixed_point src tgt folder w w1 w2 w2' i path out :
  map_csv_to_csv upper to_datetime src tgt folder w = (Ok Completed, w1) →
  written w1 !! (length (written w) + i) = Some (path, out) →
  map_csv_to_csv upper to_datetime src out folder w2 = (Ok Completed, w2') →
  written w2' !! (length (written w2) + i) = Some (path, out).
Proof.
  intros Hrun Hw Hrun2.
  rewrite (written_lookup _ _ _ _ _ _ _ _ Hrun) in Hw.
  rewrite (written_lookup _ _ _ _ _ _ _ _ Hrun2).
  case_decide; [|discriminate]. injection Hw as <- <-.
  do 2 f_equal. unfold record_of. apply target_record_idem.
Qed.

(** X6.  A completed run touches no file but those it names: a path that
    is the output file of no row holds what it held before. *)
Theorem other_files_untouched src tgt folder w w' p :
  script src tgt folder w = (Ok Completed, w') →
  (∀ i pi oi, written w' !! (length (written w) + i) = Some (pi, oi) →
              pi ≠ p) →
  (files w' : gmap string DataFrame) !! p = files w !! p.
Proof.
  intros Hrun Hp.
  destruct (completed_run _ _ _ _ _ _ _ Hrun)
    as (_ & _ & _ & _ & _ & _ & Hf & _).
  rewrite Hf. apply files_after_other. intros i Hi.
  apply elem_of_seq in Hi.
  apply (Hp i _ (record_of (normalised src) tgt i)).
  rewrite (written_lookup _ _ _ _ _ _ _ _ Hrun).
  by rewrite decide_True by lia.
Qed.

End Written.

(** ** Trimmed and truncated text *)

Lemma lstrip_head s :
  Py.lstrip s = "" ∨ ∃ c r, Py.lstrip s = String c r ∧ Py.is_space c = false.
Proof.
  induction s as [|c s IH]; simpl; [by left|].
  destruct (Py.is_space c) eqn:E; [exact IH | right; eauto].
Qed.

Lemma rstrip_head c r :
  Py.is_space c = false → ∃ r', Py.rstrip (String c r) = String c r'.
Proof. intros E. simpl. rewrite E. destruct (Py.rstrip r); eauto. Qed.

Lemma rstrip_cons c s :
  Py.rstrip (String c s)
  = match Py.rstrip s with
    | EmptyString => if Py.is_space c then EmptyString else String c EmptyString
    | r => String c r
    end.
Proof. reflexivity. Qed.

Lemma rstrip_idem s : Py.rstrip (Py.rstrip s) = Py.rstrip s.
Proof.
  induction s as [|c s IH]; [done|]. rewrite rstrip_cons.
  destruct (Py.rstrip s) as [|d r] eqn:E.
  - destruct (Py.is_space c) eqn:Ec; [done|].
    rewrite rstrip_cons. simpl. by rewrite Ec.
  - rewrite rstrip_cons. by rewrite IH.
Qed.

(** [s.strip().strip() == s.strip()] *)
Lemma strip_idem s : Py.strip (Py.strip s) = Py.strip s.
Proof.
  unfold Py.strip.
  destruct (lstrip_head s) as [-> | (c & r & -> & Ec)]; [done|].
  destruct (rstrip_head c r Ec) as [r' Hr]. rewrite Hr.
  simpl Py.lstrip. rewrite Ec. rewrite <- Hr. apply rstrip_idem.
Qed.

(** The text before the first separator holds no separator. *)
Lemma split_hd sep s :
  Py.split sep (hd "" (Py.split sep s)) = [hd "" (Py.split sep s)].
Proof.
  induction s as [|c s IH]; [done|]. simpl.
  destruct (Ascii.eqb c sep) eqn:E; [done|].
  pose proof (split_not_nil sep s) as Hne.
  destruct (Py.split sep s) as [|x xs]; [done|]. simpl in *.
  by rewrite E, IH.
Qed.

(** ** The normalised source, column by column *)

Section Columns.

Variable upper : string → string.
Variable to_datetime : list cell → nat → option date.

Abbreviation normalised := (normalise upper to_datetime).
Abbreviation script := (map_csv_to_csv upper to_datetime).

Lemma columns_normalise_plain src c :
  c ∉ derived_columns →
  columns (normalised src) !! c = columns src !! c.
Proof.
  intros Hc. unfold derived_columns in Hc.
  rewrite !not_elem_of_cons in Hc.
  destruct Hc as (? & ? & ? & ? & ? & ? & ? & ? & _).
  unfold normalise, fill_step, amount_step, date_step, setitem. simpl.
  rewrite !lookup_insert_ne by done.
  unfold name_step. destruct (_ && _); simpl.
  - unfold setitem. simpl. by rewrite !lookup_insert_ne by done.
  - by rewrite !lookup_insert_ne by done.
Qed.

Lemma columns_normalise_name src :
  has_column src FAMILY = false →
  columns (normalised src) !! NAME = columns src !! NAME.
Proof.
  intros Hf.
  unfold normalise, fill_step, amount_step, date_step, setitem. simpl.
  rewrite !lookup_insert_ne by discriminate.
  unfold name_step. rewrite has_column_award_step by discriminate.
  rewrite (has_column_award_step FAMILY) by discriminate.
  rewrite !has_column_initials_step by discriminate.
  rewrite Hf, andb_false_r. simpl.
  by rewrite !lookup_insert_ne by discriminate.
Qed.

Lemma column_normalise_name src i :
  has_column src GIVEN = true → has_column src FAMILY = true →
  i < nrows src →
  has_column (normalised src) NAME = true
  ∧ column (normalised src) NAME i =
    Series.str_strip
      (Series.add
         (Series.add_lit (Series.fillna (column src GIVEN) (Str "")) " ")
         (Series.fillna (column src FAMILY) (Str ""))) i.
Proof.
  intros Hg Hf Hi.
  assert (Hn : name_step (award_step (initials_step upper src))
    = setitem NAME
        (Series.str_strip
           (Series.add
              (Series.add_lit (Series.fillna (column src GIVEN) (Str "")) " ")
              (Series.fillna (column src FAMILY) (Str ""))))
        (award_step (initials_step upper src))).
  { unfold name_step. other_column. rewrite Hg, Hf. simpl.
    by other_column. }
  unfold normalise. other_column. rewrite Hn. split.
  - apply has_column_setitem_same.
  - by rewrite column_setitem_eq.
Qed.

Lemma column_normalise_fill src c i :
  c = DEPT ∨ c = ORCID → i < nrows src →
  column (normalised src) c i
  = Series.fillna (column src c) NOT_FOUND i.
Proof.
  intros Hc Hi. unfold normalise.
  destruct Hc as [-> | ->]; other_column.
  all: unfold fill_step at 1.
  all: rewrite column_setitem_eq
    by (simpl; rewrite nrows_name_step; exact Hi).
  all: unfold Series.fillna, Series.notna; by other_column.
Qed.

(** X7.  When the source has a familyName column, the row the loop sees
    carries as name the givenName, a space and the familyName, each taken
    as empty when missing, trimmed at both ends. *)
Theorem full_name_is_derived src tgt folder w w' i :
  script src tgt folder w = (Ok Completed, w') →
  i < nrows src →
  has_column src FAMILY = true →
  is_raw (column src GIVEN i) → is_raw (column src FAMILY i) →
  ∃ sdf, heap w' !! fresh (dom (heap w)) = Some sdf
    ∧ row_of sdf i !! NAME
      = Some (Str (Py.strip
                     ((text_or_empty (column src GIVEN i) +:+ " ")
                      +:+ text_or_empty (column src FAMILY i)))).
Proof.
  intros Hrun Hi Hf Hrg Hrf.
  destruct (completed_run _ _ _ _ _ _ _ Hrun) as (_ & Hreq & Hs & _).
  unfold has_required in Hreq. simpl in Hreq.
  apply andb_prop in Hreq as [Hg _].
  exists (normalised src). split; [exact Hs|].
  destruct (column_normalise_name src i Hg Hf Hi) as [Hn Hc].
  rewrite row_of_column by exact Hn. rewrite Hc.
  unfold Series.str_strip, Series.add, Series.add_lit, Series.fillna,
    Series.notna.
  destruct (column src GIVEN i), (column src FAMILY i); simpl in *; done.
Qed.

(** X8.  The familyName column is optional: without it the run still
    reaches the rows, and no name is derived - the row carries under the
    name key what the source held there, if anything. *)
Theorem family_name_is_optional src tgt folder w w' i :
  script src tgt folder w = (Ok Completed, w') →
  has_column src FAMILY = false →
  ∃ sdf, heap w' !! fresh (dom (heap w)) = Some sdf
    ∧ row_of sdf i !! NAME = row_of src i !! NAME.
Proof.
  intros Hrun Hf.
  destruct (completed_run _ _ _ _ _ _ _ Hrun) as (_ & _ & Hs & _).
  exists (normalised src). split; [exact Hs|].
  by rewrite !row_of_lookup, columns_normalise_name.
Qed.

(** X9.  Normalisation keeps the number of rows and rewrites only the
    eight columns it derives: under every other key the row the loop sees
    carries the source's own cell. *)
Theorem plain_columns_pass_through src tgt folder w w' i c :
  script src tgt folder w = (Ok Completed, w') →
  c ∉ derived_columns →
  ∃ sdf, heap w' !! fresh (dom (heap w)) = Some sdf
    ∧ nrows sdf = nrows src
    ∧ row_of sdf i !! c = row_of src i !! c.
Proof.
  intros Hrun Hc.
  destruct (completed_run _ _ _ _ _ _ _ Hrun) as (_ & _ & Hs & _).
  exists (normalised src). split; [exact Hs|].
  split; [apply nrows_normalise|].
  by rewrite !row_of_lookup, columns_normalise_plain.
Qed.

(** X10.  Department and ORCID reach the loop as the source has them,
    and as "NOT FOUND" where the source cell is missing. *)
Theorem department_and_orcid_filled src tgt folder w w' i c :
  script src tgt folder w = (Ok Completed, w') →
  i < nrows src →
  c = DEPT ∨ c = ORCID →
  ∃ sdf, heap w' !! fresh (dom (heap w)) = Some sdf
    ∧ row_of sdf i !! c
      = Some (if notna (column src c i) then column src c i else NOT_FOUND).
Proof.
  intros Hrun Hi Hc.
  destruct (completed_run _ _ _ _ _ _ _ Hrun) as (_ & Hreq & Hs & _).
  exists (normalised src). split; [exact Hs|].
  rewrite normalised_row_columns, column_normalise_fill; auto.
  unfold row_columns. rewrite !elem_of_cons. destruct Hc as [-> | ->]; tauto.
Qed.

(** X11.  The award id of a row is always a text, never a missing value:
    the trimmed text of the source cell, which trimming again leaves as
    it is. *)
Theorem award_id_is_trimmed src tgt folder w w' i :
  script src tgt folder w = (Ok Completed, w') →
  i < nrows src →
  ∃ sdf t, heap w' !! fresh (dom (heap w)) = Some sdf
    ∧ row_of sdf i !! AWARD = Some (Str t)
    ∧ t = Py.strip (py_str (column src AWARD i))
    ∧ Py.strip t = t.
Proof.
  intros Hrun Hi.
  destruct (award_id_is_trimmed_text upper to_datetime _ _ _ _ _ _ Hrun Hi)
    as (sdf & Hs & Ha).
  exists sdf, (Py.strip (py_str (column src AWARD i))).
  repeat split; auto. apply strip_idem.
Qed.

(** X12.  The amount of a row is always a text, never a missing value:
    the text of the source cell before its first point, and it holds no
    point. *)
Theorem amount_has_no_point src tgt folder w w' i :
  script src tgt folder w = (Ok Completed, w') →
  i < nrows src →
  ∃ sdf t, heap w' !! fresh (dom (heap w)) = Some sdf
    ∧ row_of sdf i !! AMOUNT = Some (Str t)
    ∧ t = hd "" (Py.split "." (py_str (column src AMOUNT i)))
    ∧ Py.split "." t = [t].
Proof.
  intros Hrun Hi.
  destruct (amount_is_text_before_point upper to_datetime _ _ _ _ _ _ Hrun Hi)
    as (sdf & Hs & Ha).
  exists sdf, (hd "" (Py.split "." (py_str (column src AMOUNT i)))).
  repeat split; auto. apply split_hd.
Qed.

End Columns.

(** ** Identifiers and file names *)

Lemma app_cons c a b : String c a +:+ b = String c (a +:+ b).
Proof. reflexivity. Qed.

Lemma app_empty s : "" +:+ s = s.
Proof. reflexivity. Qed.

Lemma length_app a b :
  String.length (a +:+ b) = String.length a + String.length b.
Proof.
  induction a as [|c a IH]; [done|]. rewrite app_cons. simpl. by rewrite IH.
Qed.

Lemma app_inj_r s x y : x +:+ s = y +:+ s → x = y.
Proof.
  revert y. induction x as [|c x IH]; intros [|d y] H.
  - done.
  - apply (f_equal String.length) in H.
    rewrite app_empty, app_cons in H. simpl in H. rewrite length_app in H.
    lia.
  - apply (f_equal String.length) in H.
    rewrite app_empty, app_cons in H. simpl in H. rewrite length_app in H.
    lia.
  - rewrite !app_cons in H. injection H as -> H. f_equal. by apply IH.
Qed.

Lemma grant_award_id_usable index row :
  grant_award_id index row ≠ ""
  ∧ Py.lower (grant_award_id index row) ≠ "nan"
  ∧ Py.strip (grant_award_id index row) = grant_award_id index row.
Proof.
  unfold grant_award_id.
  set (g := Py.strip _).
  destruct (bool_decide (g = "") || bool_decide (Py.lower g = "nan")) eqn:E.
  - split; [|split].
    + rewrite !app_cons. discriminate.
    + rewrite !app_cons. simpl. intros H. injection H as H _.
      vm_compute in H. discriminate H.
    + apply strip_fallback.
  - apply orb_false_elim in E as [E1 E2].
    apply bool_decide_eq_false in E1, E2.
    split; [exact E1|]. split; [exact E2|]. apply strip_idem.
Qed.

Section Names.

Variable upper : string → string.
Variable to_datetime : list cell → nat → option date.

Abbreviation script := (map_csv_to_csv upper to_datetime).

(** X13.  Every table of a completed run is saved under a usable
    identifier: not empty, not "nan" in any mix of cases, and with no
    white space at either end. *)
Theorem identifier_is_usable src tgt folder w w' i path out :
  script src tgt folder w = (Ok Completed, w') →
  written w' !! (length (written w) + i) = Some (path, out) →
  ∃ id, path = output_file folder id
    ∧ id ≠ "" ∧ Py.lower id ≠ "nan" ∧ Py.strip id = id.
Proof.
  intros Hrun Hw.
  rewrite (written_lookup _ _ _ _ _ _ _ _ Hrun) in Hw.
  case_decide; [|discriminate]. injection Hw as <- _.
  eexists. split; [reflexivity|]. apply grant_award_id_usable.
Qed.

End Names.

Lemma path_join_inj folder r r' :
  Py.path_join folder (String "m" r) = Py.path_join folder (String "m" r') →
  r = r'.
Proof.
  unfold Py.path_join. cbn match. intros H.
  destruct folder as [|c folder].
  - by injection H.
  - destruct (String.eqb _ "/").
    + apply (inj (String.app (String c folder))) in H. by injection H.
    + apply (inj (String.app (String c folder))) in H.
      rewrite !(app_cons "/"), !app_empty in H. by injection H.
Qed.

(** X14.  File names tell identifiers apart: in one output folder, two
    identifiers that give the same file name are the same identifier, so
    that only rows with equal identifiers can replace each other's file. *)
Theorem output_file_inj folder a b :
  output_file folder a = output_file folder b → a = b.
Proof.
  unfold output_file. rewrite !(app_cons "m"). intros H.
  apply path_join_inj in H.
  apply (inj (String.app "apped_output_")) in H.
  by apply (app_inj_r ".csv").
Qed.

(** ** The further theorems at the small runs *)

Lemma demo_no_family_completes :
  map_csv_to_csv ascii_upper iso_dates demo_no_family demo_template "out"
    empty_world = (Ok Completed, demo_world_no_family).
Proof.
  unfold demo_world_no_family, run.
  destruct (map_csv_to_csv _ _ _ _ _ _) as [r w] eqn:E. simpl.
  f_equal. change r with (r, w).1. rewrite <- E. vm_compute. reflexivity.
Qed.

Lemma demo_again_completes :
  map_csv_to_csv ascii_upper iso_dates demo_source (demo_written 0).2 "out"
    empty_world = (Ok Completed, demo_world_again).
Proof.
  unfold demo_world_again, run.
  destruct (map_csv_to_csv _ _ _ _ _ _) as [r w] eqn:E. simpl.
  f_equal. change r with (r, w).1. rewrite <- E. vm_compute. reflexivity.
Qed.

Lemma demo_paths :
  fst <$> written demo_world
  = ["out/mapped_output_G1.csv"; "out/mapped_output_row_2.csv";
     "out/mapped_output_G1.csv"].
Proof. vm_compute. reflexivity. Qed.


Lemma only_value_column_changes_witness :
  nrows (demo_written 0).2 = nrows demo_template
  ∧ has_column (demo_written 0).2 VALUE = true
  ∧ (∀ c, c ≠ VALUE →
       columns (demo_written 0).2 !! c = columns demo_template !! c).
Proof.
  apply (only_value_column_changes ascii_upper iso_dates demo_source
           demo_template "out" empty_world demo_world 0 (demo_written 0).1).
  - exact demo_completes.
  - apply demo_written_lookup. lia.
Defined.

Lemma written_table_is_a_fixed_point_witness :
  written demo_world_again !! (length (written empty_world) + 0)
  = Some ((demo_written 0).1, (demo_written 0).2).
Proof.
  apply (written_table_is_a_fixed_point ascii_upper iso_dates demo_source
           demo_template "out" empty_world demo_world empty_world
           demo_world_again 0 (demo_written 0).1 (demo_written 0).2).
  - exact demo_completes.
  - apply demo_written_lookup. lia.
  - exact demo_again_completes.
Defined.

Lemma other_files_untouched_witness :
  (files demo_world : gmap string DataFrame) !! "out/elsewhere.csv"
  = files empty_world !! "out/elsewhere.csv".
Proof.
  apply (other_files_untouched ascii_upper iso_dates demo_source
           demo_template "out" empty_world demo_world "out/elsewhere.csv").
  - exact demo_completes.
  - intros i pi oi H.
    assert (Hp : (fst <$> written demo_world) !! i = Some pi).
    { rewrite list_lookup_fmap. simpl in H. by rewrite H. }
    rewrite demo_paths in Hp.
    destruct i as [|[|[|i]]]; simpl in Hp; try discriminate Hp.
    all: injection Hp as <-; discriminate.
Defined.

Lemma full_name_is_derived_witness :
  ∃ sdf, heap demo_world !! fresh (dom (heap empty_world)) = Some sdf
    ∧ row_of sdf 0 !! NAME
      = Some (Str (Py.strip
                     ((text_or_empty (column demo_source GIVEN 0) +:+ " ")
                      +:+ text_or_empty (column demo_source FAMILY 0)))).
Proof.
  apply (full_name_is_derived ascii_upper iso_dates demo_source demo_template
           "out" empty_world demo_world 0).
  - exact demo_completes.
  - vm_compute. lia.
  - vm_compute. reflexivity.
  - vm_compute. exact I.
  - vm_compute. exact I.
Defined.

Lemma family_name_is_optional_witness :
  ∃ sdf,
    heap demo_world_no_family !! fresh (dom (heap empty_world)) = Some sdf
    ∧ row_of sdf 0 !! NAME = row_of demo_no_family 0 !! NAME.
Proof.
  apply (family_name_is_optional ascii_upper iso_dates demo_no_family
           demo_template "out" empty_world demo_world_no_family 0).
  - exact demo_no_family_completes.
  - vm_compute. reflexivity.
Defined.

Lemma plain_columns_pass_through_witness :
  ∃ sdf, heap demo_world !! fresh (dom (heap empty_world)) = Some sdf
    ∧ nrows sdf = nrows demo_source
    ∧ row_of sdf 0 !! GRANT = row_of demo_source 0 !! GRANT.
Proof.
  apply (plain_columns_pass_through ascii_upper iso_dates demo_source
           demo_template "out" empty_world demo_world 0 GRANT).
  - exact demo_completes.
  - unfold derived_columns. rewrite !not_elem_of_cons.
    repeat split; try discriminate. apply not_elem_of_nil.
Defined.

Lemma department_and_orcid_filled_witness :
  ∃ sdf, heap demo_world !! fresh (dom (heap empty_world)) = Some sdf
    ∧ row_of sdf 1 !! DEPT
      = Some (if notna (column demo_source DEPT 1)
              then column demo_source DEPT 1 else NOT_FOUND).
Proof.
  apply (department_and_orcid_filled ascii_upper iso_dates demo_source
           demo_template "out" empty_world demo_world 1 DEPT).
  - exact demo_completes.
  - vm_compute. lia.
  - by left.
Defined.

Lemma award_id_is_trimmed_witness :
  ∃ sdf t, heap demo_world !! fresh (dom (heap empty_world)) = Some sdf
    ∧ row_of sdf 0 !! AWARD = Some (Str t)
    ∧ t = Py.strip (py_str (column demo_source AWARD 0))
    ∧ Py.strip t = t.
Proof.
  apply (award_id_is_trimmed ascii_upper iso_dates demo_source demo_template
           "out" empty_world demo_world 0).
  - exact demo_completes.
  - vm_compute. lia.
Defined.

Lemma amount_has_no_point_witness :
  ∃ sdf t, heap demo_world !! fresh (dom (heap empty_world)) = Some sdf
    ∧ row_of sdf 0 !! AMOUNT = Some (Str t)
    ∧ t = hd "" (Py.split "." (py_str (column demo_source AMOUNT 0)))
    ∧ Py.split "." t = [t].
Proof.
  apply (amount_has_no_point ascii_upper iso_dates demo_source demo_template
           "out" empty_world demo_world 0).
  - exact demo_completes.
  - vm_compute. lia.
Defined.

Lemma identifier_is_usable_witness :
  ∃ id, (demo_written 1).1 = output_file "out" id
    ∧ id ≠ "" ∧ Py.lower id ≠ "nan" ∧ Py.strip id = id.
Proof.
  apply (identifier_is_usable ascii_upper iso_dates demo_source demo_template
           "out" empty_world demo_world 1 (demo_written 1).1
           (demo_written 1).2).
  - exact demo_completes.
  - apply demo_written_lookup. lia.
Defined.

Lemma output_file_inj_witness : "G1" = "G1".
Proof. apply (output_file_inj "out" "G1" "G1"). reflexivity. Defined.
